(** * nebula-go: the single-connection client ([connection.go])

    A shallow embedding of [connection.go] and the properties of its
    lifecycle (open, handshake, reopen, close) and of its request dispatch.

    The connection talks to three collaborators that are not part of the
    file: the thrift transport constructors, the generated graph-service
    stub and the server behind it.  Their answers are taken from a [World],
    an oracle that sees the whole history of calls made so far; every call
    made to a collaborator is appended to a trace, so that statements such
    as "the request is re-issued exactly once" or "no transport call is
    made" are statements about that trace. *)

From stdpp Require Import base strings gmap list pretty.
From Stdlib Require Import ZArith Lia.

(** ** Data *)

(** [HostAddress{Host string; Port int}]. *)
Record HostAddress := { Host : string; Port : Z }.

(** [time.Duration] and [time.Time], as integers (nanoseconds). *)
Definition Duration := Z.
Definition Time := Z.
Definition Millisecond : Duration := 1000000%Z.
Bind Scope Z_scope with Duration Time.

(** What the connection needs of a [*tls.Config]: an opaque value that is
    handed to the transport constructors; [None] is the nil pointer. *)
Record TLSConfig := { ServerName : string; InsecureSkipVerify : bool }.

(** [http.Header] is [map[string][]string]; [None] is the nil map. *)
Abbreviation Header := (gmap string (list string)).

(** A few variants of the tagged union [nebula.Value]; the connection never
    looks inside. *)
Inductive Value :=
| NVal
| BVal (b : bool)
| IVal (i : Z)
| SVal (s : string).

Abbreviation Params := (gmap string Value).

(** Go's [error] values met by the connection: thrift transport exceptions,
    which carry a type id, and the plain errors built by [fmt.Errorf]. *)
Inductive error :=
| TransportException (typeID : Z) (msg : string)
| errorString (msg : string).

Definition Error (e : error) : string :=
  match e with
  | TransportException _ msg => msg
  | errorString msg => msg
  end.

(** [thrift.TIMED_OUT]. *)
Definition TIMED_OUT : Z := 3.

(** [err == nil]. *)
Definition is_nil (err : option error) : bool :=
  match err with
  | None => true
  | Some _ => false
  end.

(** [fmt.Errorf(prefix + "%s", arg)]. *)
Definition Errorf (prefix arg : string) : error := errorString (prefix +:+ arg).

(** [nebula.ErrorCode_SUCCEEDED], of the generated package [nebula]. *)
Definition ErrorCode_SUCCEEDED : Z := 0.

(** Request and responses of the stub, as far as the connection reads
    them. *)
Inductive VerifyClientVersionReq :=
| DefaultVersionReq                 (* graph.NewVerifyClientVersionReq() *)
| VersionReq (version : string).    (* ... after req.SetVersion(version) *)

Record VerifyClientVersionResp := { ErrorCode : Z; ErrorMsg : option string }.

Definition GetErrorCode (r : VerifyClientVersionResp) : Z := ErrorCode r.
Definition GetErrorMsg (r : VerifyClientVersionResp) : string := default "" (ErrorMsg r).

Record AuthResponse :=
  { auth_ErrorCode : Z; auth_ErrorMsg : option string; auth_SessionID : option Z }.

Record ExecutionResponse :=
  { exec_ErrorCode : Z; exec_LatencyInUs : Z; exec_ErrorMsg : option string }.

(** ** Transports *)

(** [thrift.HTTPClient]: the URL it posts to, the TLS configuration of its
    HTTP/2 transport ([None]: cleartext, [AllowHTTP] with a plain dialer) and
    the headers it was given, one entry per [SetHeader] call, in call order. *)
Record HTTPClient :=
  { url : string; TLSClientConfig : option TLSConfig; header : list (string * string) }.

(** [client.SetHeader(k, v)], which is [http.Header.Add]. *)
Definition SetHeader (k v : string) (client : HTTPClient) : HTTPClient :=
  {| url := url client; TLSClientConfig := TLSClientConfig client;
     header := header client ++ [(k, v)] |}.

(** The dynamic types behind a [thrift.Transport]. *)
Inductive Transport :=
| THTTPClient (c : HTTPClient)
| TSocket (addr : string) (timeout : Duration)
| TSSLSocket (addr : string) (cfg : TLSConfig) (timeout : Duration)
| TBufferedTransport (bufferSize : Z) (inner : Transport)
| THeaderTransport (inner : Transport).

Inductive ProtocolFactory := BinaryProtocolFactory | HeaderProtocolFactory.

(** [graph.GraphServiceClient]: the transport and protocol it was built over,
    and whether its transport is open.  [g_id] tells one stub from the next:
    it is the length of the trace when the stub was built. *)
Record GraphServiceClient :=
  { g_id : nat; g_transport : Transport; g_pf : ProtocolFactory; g_open : bool }.

(** ** The connection *)

Record connection := {
  severAddress : HostAddress;
  timeout : Duration;
  returnedAt : Time;
  sslConfig : option TLSConfig;
  useHTTP2 : bool;
  httpHeader : option Header;
  handshakeKey : string;
  graph : option GraphServiceClient
}.

(** [time.Now()] is the argument [now]. *)
Definition newConnection (severAddress : HostAddress) (now : Time) : connection :=
  {| severAddress := severAddress;
     timeout := (0 * Millisecond)%Z;
     returnedAt := now;
     sslConfig := None;
     useHTTP2 := false;
     httpHeader := None;
     handshakeKey := "";
     graph := None |}.

(** ** Calls to the collaborators *)

Inductive Event :=
| ENewHTTPPostClient (url : string) (tls : option TLSConfig)
| ENewSSLSocketTimeout (addr : string) (cfg : TLSConfig) (timeout : Duration)
| ENewSocket (addr : string) (timeout : Duration)
| EOpen (id : nat)
| EClose (id : nat)
| EVerifyClientVersion (id : nat) (req : VerifyClientVersionReq)
| EAuthenticate (id : nat) (username password : string)
| EExecuteWithParameter (id : nat) (sessionID : Z) (stmt : string) (params : Params)
| EExecuteWithTimeout (id : nat) (sessionID : Z) (stmt : string) (params : Params)
    (timeoutMs : Z)
| EExecuteJsonWithParameter (id : nat) (sessionID : Z) (stmt : string) (params : Params)
| ESignout (id : nat) (sessionID : Z).

(** [Open()] fails, or succeeds and leaves the transport reporting itself
    open or not. *)
Inductive OpenReply :=
| OpenError (e : error)
| OpenDone (isOpen : bool).

(** Modelled from the spec: the thrift transports and the generated stub
    are not among the sources; the spec (RPC wire contract) lists what the
    connection consumes of them: [Open()/IsOpen()/Close()],
    [VerifyClientVersion], [Authenticate], [ExecuteWithParameter],
    [ExecuteWithTimeout], [ExecuteJsonWithParameter], [Signout].  What they
    answer is left open: each oracle below is given the trace up to and
    including the call it answers, and may answer anything. *)
Record World := {
  construct_reply : list Event -> option error;
  open_reply : list Event -> OpenReply;
  close_reply : list Event -> option error;
  verify_reply : list Event -> option VerifyClientVersionResp * option error;
  auth_reply : list Event -> option AuthResponse * option error;
  exec_reply : list Event -> option ExecutionResponse * option error;
  json_reply : list Event -> option string * option error;
  signout_reply : list Event -> option error
}.

(** ** The monad: state, trace and panics *)

Record Machine := { cn : connection; trace : list Event }.

Inductive outcome (A : Type) :=
| Ret (a : A) (m : Machine)
| Panic (m : Machine).
Arguments Ret {A} a m.
Arguments Panic {A} m.

Definition M (A : Type) : Type := Machine -> outcome A.

#[global] Instance M_ret : MRet M := fun A (a : A) (m : Machine) => Ret a m.

#[global] Instance M_bind : MBind M := fun A B (f : A -> M B) (x : M A) (m : Machine) =>
  match x m with
  | Ret a m' => f a m'
  | Panic m' => Panic m'
  end.

(** The machine in which a computation ends, returned or panicked. *)
Definition final {A} (o : outcome A) : Machine :=
  match o with
  | Ret _ m => m
  | Panic m => m
  end.

Definition get_cn : M connection := fun m => Ret (cn m) m.

Definition put_cn (c : connection) : M unit :=
  fun m => Ret tt {| cn := c; trace := trace m |}.

(** Appends a call to the trace and returns the trace the oracle is asked. *)
Definition emit (e : Event) : M (list Event) :=
  fun m => let tr := trace m ++ [e] in Ret tr {| cn := cn m; trace := tr |}.

Definition panic {A} : M A := fun m => Panic m.

(** Field assignments [cn.f = v]. *)
Definition with_timeout (v : Duration) (c : connection) : connection :=
  {| severAddress := severAddress c; timeout := v; returnedAt := returnedAt c;
     sslConfig := sslConfig c; useHTTP2 := useHTTP2 c; httpHeader := httpHeader c;
     handshakeKey := handshakeKey c; graph := graph c |}.

Definition with_useHTTP2 (v : bool) (c : connection) : connection :=
  {| severAddress := severAddress c; timeout := timeout c; returnedAt := returnedAt c;
     sslConfig := sslConfig c; useHTTP2 := v; httpHeader := httpHeader c;
     handshakeKey := handshakeKey c; graph := graph c |}.

Definition with_handshakeKey (v : string) (c : connection) : connection :=
  {| severAddress := severAddress c; timeout := timeout c; returnedAt := returnedAt c;
     sslConfig := sslConfig c; useHTTP2 := useHTTP2 c; httpHeader := httpHeader c;
     handshakeKey := v; graph := graph c |}.

Definition with_returnedAt (v : Time) (c : connection) : connection :=
  {| severAddress := severAddress c; timeout := timeout c; returnedAt := v;
     sslConfig := sslConfig c; useHTTP2 := useHTTP2 c; httpHeader := httpHeader c;
     handshakeKey := handshakeKey c; graph := graph c |}.

Definition with_graph (v : option GraphServiceClient) (c : connection) : connection :=
  {| severAddress := severAddress c; timeout := timeout c; returnedAt := returnedAt c;
     sslConfig := sslConfig c; useHTTP2 := useHTTP2 c; httpHeader := httpHeader c;
     handshakeKey := handshakeKey c; graph := v |}.

Definition assign (f : connection -> connection) : M unit :=
  c ← get_cn; put_cn (f c).

(** Modelled from the spec: the methods of the generated stub are not among
    the sources.  [cn.graph.X(...)] on a nil [*GraphServiceClient] reaches
    for the client connection inside the stub and panics there, before
    anything is sent; [deref_graph] is that dereference. *)
Definition deref_graph : M GraphServiceClient :=
  c ← get_cn;
  match graph c with
  | Some g => mret g
  | None => panic
  end.

Definition with_open (b : bool) (g : GraphServiceClient) : GraphServiceClient :=
  {| g_id := g_id g; g_transport := g_transport g; g_pf := g_pf g; g_open := b |}.

(** ** Go library functions *)

(** [strconv.Itoa]. *)
Definition Itoa (i : Z) : string := pretty i.

(** [net.JoinHostPort]: a host with a colon is bracketed. *)
Definition JoinHostPort (host port : string) : string :=
  match String.index 0 ":" host with
  | Some _ => "[" +:+ host +:+ "]:" +:+ port
  | None => host +:+ ":" +:+ port
  end.

(** The request [verifyClientVersion] builds: the generated default, with
    the version set to the handshake key when one is configured. *)
Definition handshake_req (c : connection) : VerifyClientVersionReq :=
  if decide (handshakeKey c = "") then DefaultVersionReq
  else VersionReq (handshakeKey c).

Section Connection.

Context (w : World).

(** *** The thrift constructors *)

Definition NewHTTPPostClientWithOptions (urlstr : string) (tls : option TLSConfig)
  : M (error + Transport) :=
  tr ← emit (ENewHTTPPostClient urlstr tls);
  match construct_reply w tr with
  | Some e => mret (inl e)
  | None => mret (inr (THTTPClient {| url := urlstr; TLSClientConfig := tls; header := [] |}))
  end.

Definition NewSSLSocketTimeout (addr : string) (cfg : TLSConfig) (t : Duration)
  : M (error + Transport) :=
  tr ← emit (ENewSSLSocketTimeout addr cfg t);
  match construct_reply w tr with
  | Some e => mret (inl e)
  | None => mret (inr (TSSLSocket addr cfg t))
  end.

Definition NewSocket (addr : string) (t : Duration) : M (error + Transport) :=
  tr ← emit (ENewSocket addr t);
  match construct_reply w tr with
  | Some e => mret (inl e)
  | None => mret (inr (TSocket addr t))
  end.

(** *** The generated stub *)

(** [graph.NewGraphServiceClientFactory(transport, pf)], assigned to
    [cn.graph]. *)
Definition NewGraphServiceClientFactory (transport : Transport) (pf : ProtocolFactory)
  : M unit :=
  fun m =>
    let g := {| g_id := length (trace m); g_transport := transport; g_pf := pf;
                g_open := false |} in
    assign (with_graph (Some g)) m.

Definition graph_Open : M (option error) :=
  g ← deref_graph;
  tr ← emit (EOpen (g_id g));
  match open_reply w tr with
  | OpenError e => mret (Some e)
  | OpenDone b => assign (with_graph (Some (with_open b g))) ;; mret None
  end.

Definition graph_IsOpen : M bool :=
  g ← deref_graph; mret (g_open g).

(** A close that fails leaves the transport as it was. *)
Definition graph_Close : M (option error) :=
  g ← deref_graph;
  tr ← emit (EClose (g_id g));
  match close_reply w tr with
  | Some e => mret (Some e)
  | None => assign (with_graph (Some (with_open false g))) ;; mret None
  end.

Definition graph_VerifyClientVersion (req : VerifyClientVersionReq)
  : M (option VerifyClientVersionResp * option error) :=
  g ← deref_graph;
  tr ← emit (EVerifyClientVersion (g_id g) req);
  mret (verify_reply w tr).

Definition graph_Authenticate (username password : string)
  : M (option AuthResponse * option error) :=
  g ← deref_graph;
  tr ← emit (EAuthenticate (g_id g) username password);
  mret (auth_reply w tr).

Definition graph_ExecuteWithParameter (sessionID : Z) (stmt : string) (params : Params)
  : M (option ExecutionResponse * option error) :=
  g ← deref_graph;
  tr ← emit (EExecuteWithParameter (g_id g) sessionID stmt params);
  mret (exec_reply w tr).

Definition graph_ExecuteWithTimeout (sessionID : Z) (stmt : string) (params : Params)
    (timeoutMs : Z) : M (option ExecutionResponse * option error) :=
  g ← deref_graph;
  tr ← emit (EExecuteWithTimeout (g_id g) sessionID stmt params timeoutMs);
  mret (exec_reply w tr).

Definition graph_ExecuteJsonWithParameter (sessionID : Z) (stmt : string) (params : Params)
  : M (option string * option error) :=
  g ← deref_graph;
  tr ← emit (EExecuteJsonWithParameter (g_id g) sessionID stmt params);
  mret (json_reply w tr).

Definition graph_Signout (sessionID : Z) : M (option error) :=
  g ← deref_graph;
  tr ← emit (ESignout (g_id g) sessionID);
  mret (signout_reply w tr).

(** *** connection.go *)

(** [close]: the error of [cn.graph.Close()] is dropped. *)
Definition close : M unit :=
  graph_Close ;; mret tt.

Definition verifyClientVersion : M (option error) :=
  c ← get_cn;
  let req := handshake_req c in
  r ← graph_VerifyClientVersion req;
  match r with
  | (_, Some err) =>
      close ;;
      mret (Some (Errorf "failed to verify client handshakeKey: " (Error err)))
  | (Some resp, None) =>
      if decide (GetErrorCode resp = ErrorCode_SUCCEEDED) then mret None
      else mret (Some (Errorf "incompatible handshakeKey between client and server: "
                         (GetErrorMsg resp)))
  | (None, None) => panic   (* resp.GetErrorCode() on a nil response *)
  end.

(** The inner loop [for _, v := range vv { client.SetHeader(k, v) }]. *)
Fixpoint set_values (k : string) (vv : list string) (client : HTTPClient) : HTTPClient :=
  match vv with
  | [] => client
  | v :: vv' => set_values k vv' (SetHeader k v client)
  end.

(** The outer loop [for k, vv := range httpHeader], over the entries in the
    order the range visits them. *)
Fixpoint set_headers (kvs : list (string * list string)) (client : HTTPClient)
  : HTTPClient :=
  match kvs with
  | [] => client
  | (k, vv) :: kvs' =>
      if decide (k = "Content-Type") then set_headers kvs' client
      else set_headers kvs' (set_values k vv client)
  end.

(** The [useHTTP2] branch of [open], up to the transport and protocol. *)
Definition open_http2 (newAdd : string) (sslConfig : option TLSConfig)
    (httpHeader : option Header) : M (error + Transport * ProtocolFactory) :=
  r ← match sslConfig with
      | Some cfg => NewHTTPPostClientWithOptions ("https://" +:+ newAdd) (Some cfg)
      | None => NewHTTPPostClientWithOptions ("http://" +:+ newAdd) None
      end;
  match r with
  | inl err =>
      mret (inl (Errorf "failed to create a net.Conn-backed Transport,: " (Error err)))
  | inr transport =>
      let pf := BinaryProtocolFactory in
      match httpHeader with
      | Some hdr =>
          match transport with
          | THTTPClient client =>
              mret (inr (THTTPClient (set_headers (map_to_list hdr) client), pf))
          | _ => mret (inl (errorString "failed to get thrift http client"))
          end
      | None => mret (inr (transport, pf))
      end
  end.

(** The socket branch of [open]. *)
Definition open_socket (newAdd : string) (timeout : Duration)
    (sslConfig : option TLSConfig) : M (error + Transport * ProtocolFactory) :=
  let bufferSize := Z.shiftl 128 10 in
  r ← match sslConfig with
      | Some cfg => NewSSLSocketTimeout newAdd cfg timeout
      | None => NewSocket newAdd timeout
      end;
  match r with
  | inl err =>
      mret (inl (Errorf "failed to create a net.Conn-backed Transport,: " (Error err)))
  | inr sock =>
      mret (inr (THeaderTransport (TBufferedTransport bufferSize sock),
                 HeaderProtocolFactory))
  end.

Definition open (hostAddress : HostAddress) (timeout : Duration)
    (sslConfig : option TLSConfig) (useHTTP2 : bool) (httpHeader : option Header)
    (handshakeKey : string) : M (option error) :=
  let ip := Host hostAddress in
  let port := Port hostAddress in
  let newAdd := JoinHostPort ip (Itoa port) in
  assign (with_timeout timeout) ;;
  assign (with_useHTTP2 useHTTP2) ;;
  assign (with_handshakeKey handshakeKey) ;;
  r ← (if useHTTP2 then open_http2 newAdd sslConfig httpHeader
       else open_socket newAdd timeout sslConfig);
  match r with
  | inl err => mret (Some err)
  | inr (transport, pf) =>
      NewGraphServiceClientFactory transport pf ;;
      err ← graph_Open;
      match err with
      | Some e => mret (Some (Errorf "failed to open transport, error: " (Error e)))
      | None =>
          isOpen ← graph_IsOpen;
          if negb isOpen then mret (Some (errorString "transport is off"))
          else verifyClientVersion
      end
  end.

Definition reopen : M (option error) :=
  close ;;
  c ← get_cn;
  open (severAddress c) (timeout c) (sslConfig c) (useHTTP2 c) (httpHeader c)
       (handshakeKey c).

Definition authenticate (username password : string)
  : M (option AuthResponse * option error) :=
  r ← graph_Authenticate username password;
  match r with
  | (_, Some err) =>
      let err := Errorf "authentication fails, " (Error err) in
      e ← graph_Close;
      match e with
      | Some e => mret (None, Some (Errorf "fail to close transport, error: " (Error e)))
      | None => mret (None, Some err)
      end
  | (resp, None) => mret (resp, None)
  end.

Definition executeWithParameter (sessionID : Z) (stmt : string) (params : Params)
  : M (option ExecutionResponse * option error) :=
  r ← graph_ExecuteWithParameter sessionID stmt params;
  match r with
  | (_, Some err) => mret (None, Some err)
  | (resp, None) => mret (resp, None)
  end.

Definition execute (sessionID : Z) (stmt : string)
  : M (option ExecutionResponse * option error) :=
  executeWithParameter sessionID stmt ∅.

Definition executeWithParameterTimeout (sessionID : Z) (stmt : string) (params : Params)
    (timeoutMs : Z) : M (option ExecutionResponse * option error) :=
  graph_ExecuteWithTimeout sessionID stmt params timeoutMs.

Definition ExecuteJsonWithParameter (sessionID : Z) (stmt : string) (params : Params)
  : M (option string * option error) :=
  r ← graph_ExecuteJsonWithParameter sessionID stmt params;
  match r with
  | (jsonResp, Some (TransportException typeID msg)) =>
      if decide (typeID = TIMED_OUT) then
        reopenErr ← reopen;
        match reopenErr with
        | Some e => mret (None, Some e)
        | None => graph_ExecuteJsonWithParameter sessionID stmt params
        end
      else mret (jsonResp, Some (TransportException typeID msg))
  | (jsonResp, err) => mret (jsonResp, err)
  end.

Definition executeJson (sessionID : Z) (stmt : string)
  : M (option string * option error) :=
  ExecuteJsonWithParameter sessionID stmt ∅.

Definition ping : M bool :=
  r ← execute 0 "YIELD 1";
  mret (is_nil r.2).

Definition signOut (sessionID : Z) : M (option error) :=
  graph_Signout sessionID.

(** [time.Now()] is the argument [now]. *)
Definition release (now : Time) : M unit :=
  assign (with_returnedAt now).

End Connection.

(** ** What [open] asks for *)

(** The constructor call [open] makes for a configuration. *)
Definition construct_event (newAdd : string) (timeout : Duration)
    (sslConfig : option TLSConfig) (useHTTP2 : bool) : Event :=
  if useHTTP2 then
    match sslConfig with
    | Some cfg => ENewHTTPPostClient ("https://" +:+ newAdd) (Some cfg)
    | None => ENewHTTPPostClient ("http://" +:+ newAdd) None
    end
  else
    match sslConfig with
    | Some cfg => ENewSSLSocketTimeout newAdd cfg timeout
    | None => ENewSocket newAdd timeout
    end.

(** The transport and protocol [open] ends up with when that constructor
    succeeds. *)
Definition built_transport (newAdd : string) (timeout : Duration)
    (sslConfig : option TLSConfig) (useHTTP2 : bool) (httpHeader : option Header)
  : Transport * ProtocolFactory :=
  if useHTTP2 then
    let client :=
      {| url := match sslConfig with
                | Some _ => "https://" +:+ newAdd
                | None => "http://" +:+ newAdd
                end;
         TLSClientConfig := sslConfig; header := [] |} in
    (THTTPClient (match httpHeader with
                  | Some hdr => set_headers (map_to_list hdr) client
                  | None => client
                  end),
     BinaryProtocolFactory)
  else
    (THeaderTransport
       (TBufferedTransport (Z.shiftl 128 10)
          (match sslConfig with
           | Some cfg => TSSLSocket newAdd cfg timeout
           | None => TSocket newAdd timeout
           end)),
     HeaderProtocolFactory).

(** ** Worlds used as concrete inputs *)

(** A server that accepts everything: constructors, open, close and the
    handshake succeed, requests are answered. *)
Definition ok_world : World :=
  {| construct_reply := fun _ => None;
     open_reply := fun _ => OpenDone true;
     close_reply := fun _ => None;
     verify_reply := fun _ =>
       (Some {| ErrorCode := ErrorCode_SUCCEEDED; ErrorMsg := None |}, None);
     auth_reply := fun _ =>
       (Some {| auth_ErrorCode := 0; auth_ErrorMsg := None; auth_SessionID := Some 7%Z |},
        None);
     exec_reply := fun _ =>
       (Some {| exec_ErrorCode := 0; exec_LatencyInUs := 12; exec_ErrorMsg := None |},
        None);
     json_reply := fun _ => (Some "{}", None);
     signout_reply := fun _ => None |}.

Definition graphd : HostAddress := {| Host := "graphd"; Port := 9669 |}.

(** A connection just made by [newConnection], nothing called yet. *)
Definition fresh (addr : HostAddress) (now : Time) : Machine :=
  {| cn := newConnection addr now; trace := [] |}.

(** A server that answers the handshake with an error code, here
    [nebula.ErrorCode_E_BAD_USERNAME_PASSWORD]. *)
Definition E_BAD_USERNAME_PASSWORD : Z := (-1001)%Z.

Definition reject_world : World :=
  {| construct_reply := construct_reply ok_world;
     open_reply := open_reply ok_world;
     close_reply := close_reply ok_world;
     verify_reply := fun _ =>
       (Some {| ErrorCode := E_BAD_USERNAME_PASSWORD;
                ErrorMsg := Some "version mismatch" |}, None);
     auth_reply := auth_reply ok_world;
     exec_reply := exec_reply ok_world;
     json_reply := json_reply ok_world;
     signout_reply := signout_reply ok_world |}.

(** A network that breaks once the handshake is done: every later request
    fails with a broken pipe; [close_fails] says whether closing fails too. *)
Definition broken_pipe : error := TransportException 0 "write: broken pipe".

Definition broken_world (close_fails : bool) : World :=
  {| construct_reply := construct_reply ok_world;
     open_reply := open_reply ok_world;
     close_reply := fun _ =>
       if close_fails then Some (errorString "close: bad file descriptor") else None;
     verify_reply := verify_reply ok_world;
     auth_reply := fun _ => (None, Some broken_pipe);
     exec_reply := fun _ => (None, Some broken_pipe);
     json_reply := fun _ => (None, Some broken_pipe);
     signout_reply := fun _ => Some broken_pipe |}.

(** A network on which the handshake request itself is lost. *)
Definition handshake_lost_world : World :=
  {| construct_reply := construct_reply ok_world;
     open_reply := open_reply ok_world;
     close_reply := close_reply ok_world;
     verify_reply := fun _ => (None, Some broken_pipe);
     auth_reply := auth_reply ok_world;
     exec_reply := exec_reply ok_world;
     json_reply := json_reply ok_world;
     signout_reply := signout_reply ok_world |}.

(** Counting calls in a trace. *)
Fixpoint count_events (p : Event -> bool) (tr : list Event) : nat :=
  match tr with
  | [] => 0
  | e :: tr' => (if p e then 1 else 0) + count_events p tr'
  end.

Definition is_construct (e : Event) : bool :=
  match e with
  | ENewHTTPPostClient _ _ | ENewSSLSocketTimeout _ _ _ | ENewSocket _ _ => true
  | _ => false
  end.

Definition is_close (e : Event) : bool :=
  match e with
  | EClose _ => true
  | _ => false
  end.

Definition is_json (e : Event) : bool :=
  match e with
  | EExecuteJsonWithParameter _ _ _ _ => true
  | _ => false
  end.

(** A server whose first structured-payload request times out and whose
    later ones are answered. *)
Definition timeout_once_world : World :=
  {| construct_reply := construct_reply ok_world;
     open_reply := open_reply ok_world;
     close_reply := close_reply ok_world;
     verify_reply := verify_reply ok_world;
     auth_reply := auth_reply ok_world;
     exec_reply := exec_reply ok_world;
     json_reply := fun tr =>
       if Nat.eqb (count_events is_json tr) 1
       then (None, Some (TransportException TIMED_OUT "i/o timeout"))
       else (Some "{}", None);
     signout_reply := signout_reply ok_world |}.

(** The values a client was given for key [k], in call order. *)
Definition values_set (k : string) (client : HTTPClient) : list string :=
  (filter (fun kv => kv.1 = k) (header client)).*2.

(** ** More worlds and counters *)

Definition is_auth (e : Event) : bool :=
  match e with
  | EAuthenticate _ _ _ => true
  | _ => false
  end.

(** A host name that does not resolve: no transport can be constructed. *)
Definition unresolved_world : World :=
  {| construct_reply := fun _ => Some (errorString "lookup graphd: no such host");
     open_reply := open_reply ok_world;
     close_reply := close_reply ok_world;
     verify_reply := verify_reply ok_world;
     auth_reply := auth_reply ok_world;
     exec_reply := exec_reply ok_world;
     json_reply := json_reply ok_world;
     signout_reply := signout_reply ok_world |}.

(** A port nobody listens on: [Open()] fails. *)
Definition refused_world : World :=
  {| construct_reply := construct_reply ok_world;
     open_reply := fun _ => OpenError (TransportException 1 "connect: connection refused");
     close_reply := close_reply ok_world;
     verify_reply := verify_reply ok_world;
     auth_reply := auth_reply ok_world;
     exec_reply := exec_reply ok_world;
     json_reply := json_reply ok_world;
     signout_reply := signout_reply ok_world |}.

(** A transport whose [Open()] returns no error and which then reports
    itself not open. *)
Definition off_world : World :=
  {| construct_reply := construct_reply ok_world;
     open_reply := fun _ => OpenDone false;
     close_reply := close_reply ok_world;
     verify_reply := verify_reply ok_world;
     auth_reply := auth_reply ok_world;
     exec_reply := exec_reply ok_world;
     json_reply := json_reply ok_world;
     signout_reply := signout_reply ok_world |}.

(** A server on which every query times out, and answers a response along
    with the error. *)
Definition slow_world : World :=
  {| construct_reply := construct_reply ok_world;
     open_reply := open_reply ok_world;
     close_reply := close_reply ok_world;
     verify_reply := verify_reply ok_world;
     auth_reply := auth_reply ok_world;
     exec_reply := fun _ =>
       (Some {| exec_ErrorCode := 0; exec_LatencyInUs := 0; exec_ErrorMsg := None |},
        Some (TransportException TIMED_OUT "i/o timeout"));
     json_reply := json_reply ok_world;
     signout_reply := signout_reply ok_world |}.

(** The stub of a connection opened without TLS on [graphd] as its first
    action. *)
Definition graphd_stub : GraphServiceClient :=
  {| g_id := 1;
     g_transport := THeaderTransport (TBufferedTransport 131072 (TSocket "graphd:9669" 0));
     g_pf := HeaderProtocolFactory;
     g_open := true |}.

(** ** Equations of the monad and of the stub *)

Lemma bind_run {A B} (x : M A) (f : A -> M B) (m : Machine) :
  (x ≫= f) m = match x m with Ret a m' => f a m' | Panic m' => Panic m' end.
Proof. reflexivity. Qed.

Lemma ret_run {A} (a : A) (m : Machine) : (mret a : M A) m = Ret a m.
Proof. reflexivity. Qed.

Lemma deref_graph_some m g : graph (cn m) = Some g -> deref_graph m = Ret g m.
Proof. unfold deref_graph, get_cn. rewrite bind_run. intros ->. reflexivity. Qed.

Lemma deref_graph_none m : graph (cn m) = None -> deref_graph m = Panic m.
Proof. unfold deref_graph, get_cn. rewrite bind_run. intros ->. reflexivity. Qed.

(** Unfolds the monad down to matches on machines. *)
Ltac munfold :=
  unfold assign, get_cn, put_cn, emit, panic;
  unfold mbind, mret, M_bind, M_ret;
  cbn [cn trace].

Section StubEquations.

Context (w : World) (m : Machine) (g : GraphServiceClient).
Hypothesis Hg : graph (cn m) = Some g.

Lemma graph_Close_run :
  graph_Close w m =
    let tr := trace m ++ [EClose (g_id g)] in
    match close_reply w tr with
    | Some e => Ret (Some e) {| cn := cn m; trace := tr |}
    | None => Ret None {| cn := with_graph (Some (with_open false g)) (cn m); trace := tr |}
    end.
Proof.
  unfold graph_Close. rewrite bind_run, (deref_graph_some _ _ Hg).
  munfold. destruct (close_reply w _); reflexivity.
Qed.

Lemma close_run :
  close w m =
    let tr := trace m ++ [EClose (g_id g)] in
    match close_reply w tr with
    | Some e => Ret tt {| cn := cn m; trace := tr |}
    | None => Ret tt {| cn := with_graph (Some (with_open false g)) (cn m); trace := tr |}
    end.
Proof.
  unfold close. rewrite bind_run, graph_Close_run. cbn.
  destruct (close_reply w _); reflexivity.
Qed.

Lemma graph_VerifyClientVersion_run req :
  graph_VerifyClientVersion w req m =
    let tr := trace m ++ [EVerifyClientVersion (g_id g) req] in
    Ret (verify_reply w tr) {| cn := cn m; trace := tr |}.
Proof.
  unfold graph_VerifyClientVersion. rewrite bind_run, (deref_graph_some _ _ Hg).
  reflexivity.
Qed.

Lemma graph_Authenticate_run username password :
  graph_Authenticate w username password m =
    let tr := trace m ++ [EAuthenticate (g_id g) username password] in
    Ret (auth_reply w tr) {| cn := cn m; trace := tr |}.
Proof.
  unfold graph_Authenticate. rewrite bind_run, (deref_graph_some _ _ Hg).
  reflexivity.
Qed.

Lemma graph_ExecuteWithParameter_run sessionID stmt params :
  graph_ExecuteWithParameter w sessionID stmt params m =
    let tr := trace m ++ [EExecuteWithParameter (g_id g) sessionID stmt params] in
    Ret (exec_reply w tr) {| cn := cn m; trace := tr |}.
Proof.
  unfold graph_ExecuteWithParameter. rewrite bind_run, (deref_graph_some _ _ Hg).
  reflexivity.
Qed.

Lemma graph_ExecuteJsonWithParameter_run sessionID stmt params :
  graph_ExecuteJsonWithParameter w sessionID stmt params m =
    let tr := trace m ++ [EExecuteJsonWithParameter (g_id g) sessionID stmt params] in
    Ret (json_reply w tr) {| cn := cn m; trace := tr |}.
Proof.
  unfold graph_ExecuteJsonWithParameter. rewrite bind_run, (deref_graph_some _ _ Hg).
  reflexivity.
Qed.

End StubEquations.

(** A nil stub: every method panics at the dereference, before any call is
    made. *)
Section NilStub.

Context (w : World) (m : Machine).
Hypothesis Hnil : graph (cn m) = None.

Lemma graph_Close_nil : graph_Close w m = Panic m.
Proof. unfold graph_Close. rewrite bind_run, (deref_graph_none _ Hnil). reflexivity. Qed.

Lemma graph_Authenticate_nil u p : graph_Authenticate w u p m = Panic m.
Proof.
  unfold graph_Authenticate. rewrite bind_run, (deref_graph_none _ Hnil). reflexivity.
Qed.

Lemma graph_ExecuteWithParameter_nil sid stmt params :
  graph_ExecuteWithParameter w sid stmt params m = Panic m.
Proof.
  unfold graph_ExecuteWithParameter. rewrite bind_run, (deref_graph_none _ Hnil).
  reflexivity.
Qed.

Lemma graph_ExecuteWithTimeout_nil sid stmt params t :
  graph_ExecuteWithTimeout w sid stmt params t m = Panic m.
Proof.
  unfold graph_ExecuteWithTimeout. rewrite bind_run, (deref_graph_none _ Hnil).
  reflexivity.
Qed.

Lemma graph_ExecuteJsonWithParameter_nil sid stmt params :
  graph_ExecuteJsonWithParameter w sid stmt params m = Panic m.
Proof.
  unfold graph_ExecuteJsonWithParameter. rewrite bind_run, (deref_graph_none _ Hnil).
  reflexivity.
Qed.

Lemma graph_Signout_nil sid : graph_Signout w sid m = Panic m.
Proof. unfold graph_Signout. rewrite bind_run, (deref_graph_none _ Hnil). reflexivity. Qed.

End NilStub.


(** ** Request dispatch *)

(** C7: for every session id and statement, [execute] returns exactly what
    [executeWithParameter] returns on the empty parameter map, result, error
    and machine. *)
Theorem execute_is_executeWithParameter_empty (w : World) (sessionID : Z) (stmt : string)
    (m : Machine) :
  execute w sessionID stmt m = executeWithParameter w sessionID stmt ∅ m.
Proof. reflexivity. Qed.

Lemma executeWithParameter_run w m g sessionID stmt params :
  graph (cn m) = Some g ->
  executeWithParameter w sessionID stmt params m =
    let tr := trace m ++ [EExecuteWithParameter (g_id g) sessionID stmt params] in
    Ret (match exec_reply w tr with
         | (_, Some err) => (None, Some err)
         | (resp, None) => (resp, None)
         end) {| cn := cn m; trace := tr |}.
Proof.
  intros Hg. unfold executeWithParameter.
  rewrite bind_run, (graph_ExecuteWithParameter_run _ _ _ Hg). cbn.
  destruct (exec_reply w _) as [resp [err|]]; reflexivity.
Qed.

Lemma executeWithParameter_nil w m sessionID stmt params :
  graph (cn m) = None -> executeWithParameter w sessionID stmt params m = Panic m.
Proof.
  intros Hnil. unfold executeWithParameter.
  rewrite bind_run, graph_ExecuteWithParameter_nil by assumption. reflexivity.
Qed.

Lemma ping_run w m :
  ping w m =
    match execute w 0 "YIELD 1" m with
    | Ret r m' => Ret (is_nil r.2) m'
    | Panic m' => Panic m'
    end.
Proof. reflexivity. Qed.

(** C6: in every state, [ping] returns true exactly when
    [execute(0, "YIELD 1")] returns without an error, and returns false, in
    the machine [execute] leaves, whenever [execute] returns an error: the
    error is not passed on. *)
Theorem ping_true_iff_execute_ok (w : World) (m m' : Machine) :
  (ping w m = Ret true m' <->
     exists resp, execute w 0 "YIELD 1" m = Ret (resp, None) m') /\
  (ping w m = Ret false m' <->
     exists resp err, execute w 0 "YIELD 1" m = Ret (resp, Some err) m').
Proof.
  rewrite ping_run.
  destruct (execute w 0 "YIELD 1" m) as [[resp [err|]] m1|m1]; cbn; split; split.
  all: try (intros [= <-]; eauto).
  all: try (intros (? & ? & [= _ _ <-]); reflexivity).
  all: try (intros (? & [= _ <-]); reflexivity).
  all: try discriminate.
  all: try (intros (? & ? & [=])).
  all: try (intros (? & [=])).
Qed.

(** The probe of a connection whose server fails every request. *)
Lemma ping_true_iff_execute_ok_witness :
  let m := final (open (broken_world false) graphd 0%Z None false None ""
                   (fresh graphd 0%Z)) in
  exists m', ping (broken_world false) m = Ret false m'.
Proof.
  intros m.
  eexists.
  apply (proj2 (ping_true_iff_execute_ok (broken_world false) m _)).
  vm_compute. eexists _, _. reflexivity.
Defined.

(** C9: in every state, [release] makes no call (the trace is unchanged; the
    function does not even take a world), never panics, and changes no field
    but [returnedAt]. *)
Theorem release_only_stamps_returnedAt (now : Time) (m : Machine) :
  exists m',
    release now m = Ret tt m' /\
    trace m' = trace m /\
    returnedAt (cn m') = now /\
    severAddress (cn m') = severAddress (cn m) /\
    timeout (cn m') = timeout (cn m) /\
    sslConfig (cn m') = sslConfig (cn m) /\
    useHTTP2 (cn m') = useHTTP2 (cn m) /\
    httpHeader (cn m') = httpHeader (cn m) /\
    handshakeKey (cn m') = handshakeKey (cn m) /\
    graph (cn m') = graph (cn m).
Proof.
  eexists. split; [reflexivity|]. cbn. repeat split.
Qed.

(** ** Authentication *)

(** C5: when the [Authenticate] RPC fails on a connection with a stub, the
    close of the transport is attempted (the next call in the trace); if the
    close succeeds the error returned is the wrapped authentication failure,
    if the close fails it is the close failure alone; the response is nil in
    both cases. *)
Theorem authenticate_failure (w : World) (m : Machine) (g : GraphServiceClient)
    (username password : string) (resp : option AuthResponse) (err : error) :
  graph (cn m) = Some g ->
  let tr1 := trace m ++ [EAuthenticate (g_id g) username password] in
  let tr2 := tr1 ++ [EClose (g_id g)] in
  auth_reply w tr1 = (resp, Some err) ->
  authenticate w username password m =
    match close_reply w tr2 with
    | None =>
        Ret (None, Some (errorString ("authentication fails, " +:+ Error err)))
            {| cn := with_graph (Some (with_open false g)) (cn m); trace := tr2 |}
    | Some e =>
        Ret (None, Some (errorString ("fail to close transport, error: " +:+ Error e)))
            {| cn := cn m; trace := tr2 |}
    end.
Proof.
  intros Hg tr1 tr2 Hauth. unfold authenticate.
  rewrite bind_run, (graph_Authenticate_run _ _ _ Hg). cbn zeta.
  fold tr1. rewrite Hauth.
  rewrite bind_run, (graph_Close_run w _ g) by exact Hg.
  cbn [cn trace]. fold tr1 tr2.
  destruct (close_reply w tr2); reflexivity.
Qed.

(** Wrong credentials sent over a broken network whose close fails as well:
    only the close failure comes back. *)
Lemma authenticate_failure_witness :
  let w := broken_world true in
  let m := final (open w graphd 0%Z None false None "" (fresh graphd 0%Z)) in
  exists m',
    authenticate w "root" "nebula" m =
      Ret (None, Some (errorString
             "fail to close transport, error: close: bad file descriptor")) m'.
Proof.
  intros w m. eexists.
  refine (eq_trans
    (authenticate_failure w m
       {| g_id := 1; g_pf := HeaderProtocolFactory; g_open := true;
          g_transport :=
            THeaderTransport (TBufferedTransport 131072 (TSocket "graphd:9669" 0)) |}
       "root" "nebula" None broken_pipe _ _) _).
  - vm_compute. reflexivity.
  - vm_compute. reflexivity.
  - vm_compute. reflexivity.
Defined.

(** ** Handshake *)

(** ** Handshake *)

Lemma verifyClientVersion_run w m g :
  graph (cn m) = Some g ->
  verifyClientVersion w m =
    let tr := trace m ++ [EVerifyClientVersion (g_id g) (handshake_req (cn m))] in
    let m1 := {| cn := cn m; trace := tr |} in
    match verify_reply w tr with
    | (_, Some err) =>
        match close w m1 with
        | Ret _ m2 =>
            Ret (Some (Errorf "failed to verify client handshakeKey: " (Error err))) m2
        | Panic m2 => Panic m2
        end
    | (Some resp, None) =>
        if decide (GetErrorCode resp = ErrorCode_SUCCEEDED) then Ret None m1
        else Ret (Some (Errorf "incompatible handshakeKey between client and server: "
                          (GetErrorMsg resp))) m1
    | (None, None) => Panic m1
    end.
Proof.
  intros Hg. unfold verifyClientVersion.
  rewrite bind_run. unfold get_cn at 1.
  rewrite bind_run, (graph_VerifyClientVersion_run _ _ _ Hg). cbn zeta.
  destruct (verify_reply w _) as [[resp|] [err|]]; try reflexivity.
  destruct (decide _); reflexivity.
Qed.

(** C4: on a connection with a stub, a handshake whose RPC fails is followed
    at once by a close of that stub (which marks the transport closed when
    the close succeeds) and returns the wrapped RPC error; a handshake that
    is answered with a code other than SUCCEEDED returns the "incompatible"
    error carrying the server's message, makes no further call and leaves
    the connection, its open transport included, exactly as it was. *)
Theorem verifyClientVersion_failures (w : World) (m : Machine) (g : GraphServiceClient) :
  graph (cn m) = Some g ->
  let tr := trace m ++ [EVerifyClientVersion (g_id g) (handshake_req (cn m))] in
  (forall resp err, verify_reply w tr = (resp, Some err) ->
     exists c',
       verifyClientVersion w m =
         Ret (Some (errorString ("failed to verify client handshakeKey: " +:+ Error err)))
             {| cn := c'; trace := tr ++ [EClose (g_id g)] |} /\
       (close_reply w (tr ++ [EClose (g_id g)]) = None ->
          c' = with_graph (Some (with_open false g)) (cn m))) /\
  (forall resp, verify_reply w tr = (Some resp, None) ->
     ErrorCode resp <> ErrorCode_SUCCEEDED ->
     verifyClientVersion w m =
       Ret (Some (errorString ("incompatible handshakeKey between client and server: "
                                 +:+ GetErrorMsg resp)))
           {| cn := cn m; trace := tr |}).
Proof.
  intros Hg tr. rewrite (verifyClientVersion_run _ _ _ Hg). cbn zeta. fold tr. split.
  - intros resp err ->.
    rewrite (close_run w _ g) by exact Hg. cbn [cn trace].
    destruct resp, (close_reply w _) as [e|]; eexists; (split; [reflexivity|]).
    all: first [discriminate | reflexivity].
  - intros resp -> Hne.
    destruct (decide _) as [Heq|_]; [contradiction|reflexivity].
Qed.

(** A server that rejects the handshake of an open transport: the error is
    returned and the transport is still open. *)
Lemma verifyClientVersion_failures_witness :
  let g := {| g_id := 1; g_pf := HeaderProtocolFactory; g_open := true;
              g_transport :=
                THeaderTransport (TBufferedTransport 131072 (TSocket "graphd:9669" 0)) |} in
  let m := {| cn := with_graph (Some g) (newConnection graphd 0);
              trace := [ENewSocket "graphd:9669" 0; EOpen 1] |} in
  verifyClientVersion reject_world m =
    Ret (Some (errorString
           "incompatible handshakeKey between client and server: version mismatch"))
        {| cn := cn m;
           trace := [ENewSocket "graphd:9669" 0; EOpen 1;
                     EVerifyClientVersion 1 DefaultVersionReq] |}.
Proof.
  intros g m.
  exact (proj2 (verifyClientVersion_failures reject_world m g eq_refl)
           {| ErrorCode := E_BAD_USERNAME_PASSWORD; ErrorMsg := Some "version mismatch" |}
           eq_refl ltac:(discriminate)).
Defined.

(** ** Opening *)

Lemma build_run w newAdd t ssl (h2 : bool) hdr m :
  (if h2 then open_http2 w newAdd ssl hdr else open_socket w newAdd t ssl) m =
    let tr := trace m ++ [construct_event newAdd t ssl h2] in
    match construct_reply w tr with
    | Some e =>
        Ret (inl (Errorf "failed to create a net.Conn-backed Transport,: " (Error e)))
            {| cn := cn m; trace := tr |}
    | None => Ret (inr (built_transport newAdd t ssl h2 hdr)) {| cn := cn m; trace := tr |}
    end.
Proof.
  unfold open_http2, open_socket, NewHTTPPostClientWithOptions, NewSSLSocketTimeout,
    NewSocket, construct_event, built_transport.
  destruct h2, ssl as [cfg|]; munfold;
    destruct (construct_reply w _); try reflexivity;
    destruct hdr; reflexivity.
Qed.

(** [open], spelled out as a decision tree over the answers it gets. *)
Lemma open_run w addr t ssl h2 hdr key m :
  open w addr t ssl h2 hdr key m =
    let newAdd := JoinHostPort (Host addr) (Itoa (Port addr)) in
    let c0 := with_handshakeKey key (with_useHTTP2 h2 (with_timeout t (cn m))) in
    let tr1 := trace m ++ [construct_event newAdd t ssl h2] in
    match construct_reply w tr1 with
    | Some e =>
        Ret (Some (Errorf "failed to create a net.Conn-backed Transport,: " (Error e)))
            {| cn := c0; trace := tr1 |}
    | None =>
        let g0 := {| g_id := length tr1;
                     g_transport := (built_transport newAdd t ssl h2 hdr).1;
                     g_pf := (built_transport newAdd t ssl h2 hdr).2;
                     g_open := false |} in
        let tr2 := tr1 ++ [EOpen (length tr1)] in
        match open_reply w tr2 with
        | OpenError e =>
            Ret (Some (Errorf "failed to open transport, error: " (Error e)))
                {| cn := with_graph (Some g0) c0; trace := tr2 |}
        | OpenDone false =>
            Ret (Some (errorString "transport is off"))
                {| cn := with_graph (Some g0) c0; trace := tr2 |}
        | OpenDone true =>
            verifyClientVersion w
              {| cn := with_graph (Some (with_open true g0)) c0; trace := tr2 |}
        end
    end.
Proof.
  unfold open. cbn zeta.
  do 3 (rewrite bind_run; unfold assign at 1; rewrite bind_run; cbn [get_cn put_cn cn trace]).
  rewrite bind_run, build_run. cbn zeta. cbn [cn trace].
  destruct (construct_reply w _) as [e|]; [reflexivity|].
  destruct (built_transport _ _ _ _ _) as [transport pf]. cbn [fst snd].
  unfold NewGraphServiceClientFactory, graph_Open, graph_IsOpen, deref_graph.
  munfold. cbn [graph with_graph g_id].
  destruct (open_reply w _) as [e|[|]]; reflexivity.
Qed.

(** A successful [open] leaves a stub over the transport it built, open. *)
Lemma open_success w addr t ssl h2 hdr key m m' :
  open w addr t ssl h2 hdr key m = Ret None m' ->
  exists g,
    graph (cn m') = Some g /\ g_open g = true /\
    g_transport g =
      (built_transport (JoinHostPort (Host addr) (Itoa (Port addr))) t ssl h2 hdr).1.
Proof.
  rewrite open_run. cbn zeta.
  destruct (construct_reply w _) as [e|]; [discriminate|].
  destruct (open_reply w _) as [e|[|]]; try discriminate.
  erewrite verifyClientVersion_run by reflexivity. cbn zeta. cbn [cn trace].
  destruct (verify_reply w _) as [[resp|] [err|]]; try discriminate.
  - erewrite close_run by reflexivity. cbn zeta.
    destruct (close_reply w _); discriminate.
  - destruct (decide _); [|discriminate].
    intros [= <-]. eexists. cbn. repeat split.
  - erewrite close_run by reflexivity. cbn zeta.
    destruct (close_reply w _); discriminate.
Qed.

(** ** The stub before [open] *)

(** C10: the connection [newConnection] returns has a nil stub; on a nil
    stub [close], [ping], [authenticate], [signOut] and every execute
    variant panic at the dereference, with no call made and the machine
    untouched, instead of returning an error; a successful [open] is what
    leaves a stub in place. *)
Theorem nil_stub_panics (w : World) :
  (forall addr now, graph (newConnection addr now) = None) /\
  (forall m, graph (cn m) = None ->
     close w m = Panic m /\
     ping w m = Panic m /\
     (forall username password, authenticate w username password m = Panic m) /\
     (forall sessionID, signOut w sessionID m = Panic m) /\
     (forall sessionID stmt, execute w sessionID stmt m = Panic m) /\
     (forall sessionID stmt params,
        executeWithParameter w sessionID stmt params m = Panic m) /\
     (forall sessionID stmt params timeoutMs,
        executeWithParameterTimeout w sessionID stmt params timeoutMs m = Panic m) /\
     (forall sessionID stmt, executeJson w sessionID stmt m = Panic m) /\
     (forall sessionID stmt params,
        ExecuteJsonWithParameter w sessionID stmt params m = Panic m)) /\
  (forall addr t ssl h2 hdr key m m',
     open w addr t ssl h2 hdr key m = Ret None m' -> is_Some (graph (cn m'))).
Proof.
  split; [reflexivity|]. split.
  - intros m Hnil. repeat split; intros.
    + unfold close. rewrite bind_run, graph_Close_nil by assumption. reflexivity.
    + rewrite ping_run. unfold execute.
      rewrite executeWithParameter_nil by assumption. reflexivity.
    + unfold authenticate.
      rewrite bind_run, graph_Authenticate_nil by assumption. reflexivity.
    + apply graph_Signout_nil. assumption.
    + apply executeWithParameter_nil. assumption.
    + apply executeWithParameter_nil. assumption.
    + apply graph_ExecuteWithTimeout_nil. assumption.
    + unfold executeJson, ExecuteJsonWithParameter.
      rewrite bind_run, graph_ExecuteJsonWithParameter_nil by assumption. reflexivity.
    + unfold ExecuteJsonWithParameter.
      rewrite bind_run, graph_ExecuteJsonWithParameter_nil by assumption. reflexivity.
  - intros addr t ssl h2 hdr key m m' Hopen.
    destruct (open_success _ _ _ _ _ _ _ _ _ Hopen) as (g & -> & _). eexists. reflexivity.
Qed.

(** Closing a connection that was never opened. *)
Lemma nil_stub_panics_witness :
  close ok_world (fresh graphd 0) = Panic (fresh graphd 0).
Proof.
  exact (proj1 (proj1 (proj2 (nil_stub_panics ok_world)) (fresh graphd 0) eq_refl)).
Defined.

(** Once the constructor has succeeded, [open] ends, however it ends, with
    [cn.graph] built over the transport of [built_transport]. *)
Lemma open_stub_transport w addr t ssl h2 hdr key m :
  let newAdd := JoinHostPort (Host addr) (Itoa (Port addr)) in
  construct_reply w (trace m ++ [construct_event newAdd t ssl h2]) = None ->
  exists g,
    graph (cn (final (open w addr t ssl h2 hdr key m))) = Some g /\
    g_transport g = (built_transport newAdd t ssl h2 hdr).1.
Proof.
  intros newAdd Hc. rewrite open_run. cbn zeta. fold newAdd. rewrite Hc.
  destruct (open_reply w _) as [e|[|]]; try (eexists; split; reflexivity).
  erewrite verifyClientVersion_run by reflexivity. cbn zeta. cbn [cn trace].
  destruct (verify_reply w _) as [[resp|] [err|]].
  all: try (erewrite close_run by reflexivity; cbn zeta; destruct (close_reply w _)).
  all: try destruct (decide _).
  all: eexists; split; reflexivity.
Qed.

(** ** Headers of the HTTP/2 client *)

Lemma values_set_SetHeader k k' v client :
  values_set k (SetHeader k' v client) =
    values_set k client ++ (if decide (k' = k) then [v] else []).
Proof.
  unfold values_set, SetHeader. cbn [header].
  rewrite filter_app, fmap_app. f_equal.
  rewrite filter_cons, filter_nil. cbn [fst].
  destruct (decide (k' = k)); reflexivity.
Qed.

Lemma values_set_set_values k k' vv client :
  values_set k (set_values k' vv client) =
    values_set k client ++ (if decide (k' = k) then vv else []).
Proof.
  revert client. induction vv as [|v vv IH]; intros client; cbn [set_values].
  - destruct (decide (k' = k)); rewrite app_nil_r; reflexivity.
  - rewrite IH, values_set_SetHeader.
    destruct (decide (k' = k)); rewrite <- app_assoc; reflexivity.
Qed.

Lemma values_set_set_headers k (kvs : list (string * list string)) client :
  NoDup kvs.*1 ->
  values_set k (set_headers kvs client) =
    values_set k client ++
      (if decide (k = "Content-Type") then []
       else default [] ((list_to_map kvs : Header) !! k)).
Proof.
  revert client. induction kvs as [|[k' vv] kvs IH]; intros client Hnd.
  - cbn [set_headers list_to_map foldr]. rewrite lookup_empty. cbn.
    destruct (decide (k = "Content-Type")); rewrite app_nil_r; reflexivity.
  - rewrite fmap_cons in Hnd. apply NoDup_cons in Hnd as [Hnotin Hnd].
    cbn [set_headers fst]. rewrite list_to_map_cons.
    destruct (decide (k' = "Content-Type")) as [->|Hk'].
    + rewrite (IH _ Hnd). destruct (decide (k = "Content-Type")); [reflexivity|].
      rewrite lookup_insert_ne by congruence. reflexivity.
    + rewrite (IH _ Hnd), values_set_set_values, <- app_assoc. f_equal.
      destruct (decide (k' = k)) as [->|Hne].
      * rewrite (not_elem_of_list_to_map_1 _ _ Hnotin), lookup_insert_eq.
        repeat case_decide; try contradiction. cbn. apply app_nil_r.
      * rewrite lookup_insert_ne by assumption. reflexivity.
Qed.

(** C8: an [open] with [useHTTP2] set and a non-nil header map whose HTTP
    client was constructed leaves that client as the transport of the stub;
    for every key other than Content-Type the values the client was given
    are the values of the map, one [SetHeader] call per value and in their
    order, and for Content-Type (and for keys not in the map) it was given
    none. *)
Theorem open_copies_headers (w : World) (addr : HostAddress) (t : Duration)
    (ssl : option TLSConfig) (hdr : Header) (key : string) (m : Machine) :
  let newAdd := JoinHostPort (Host addr) (Itoa (Port addr)) in
  construct_reply w (trace m ++ [construct_event newAdd t ssl true]) = None ->
  exists g client,
    graph (cn (final (open w addr t ssl true (Some hdr) key m))) = Some g /\
    g_transport g = THTTPClient client /\
    forall k,
      values_set k client =
        if decide (k = "Content-Type") then [] else default [] (hdr !! k).
Proof.
  intros newAdd Hc.
  destruct (open_stub_transport w addr t ssl true (Some hdr) key m Hc) as (g & Hg & Ht).
  exists g. eexists. split; [exact Hg|]. split; [exact Ht|].
  intros k. rewrite values_set_set_headers by apply NoDup_fst_map_to_list.
  rewrite list_to_map_to_list. reflexivity.
Qed.

(** A header map with a multi-valued key and a Content-Type: the client gets
    the two values one by one and no Content-Type. *)
Lemma open_copies_headers_witness :
  let hdr : Header :=
    {[ "Content-Type" := ["application/json"]; "X-Trace" := ["a"; "b"] ]} in
  exists g client,
    graph (cn (final (open ok_world graphd 0 None true (Some hdr) "" (fresh graphd 0))))
      = Some g /\
    g_transport g = THTTPClient client /\
    forall k,
      values_set k client =
        if decide (k = "Content-Type") then [] else default [] (hdr !! k).
Proof.
  intros hdr.
  apply (open_copies_headers ok_world graphd 0 None hdr "" (fresh graphd 0)).
  reflexivity.
Defined.

Example http2_headers_example :
  let hdr : Header :=
    {[ "Content-Type" := ["application/json"]; "X-Trace" := ["a"; "b"] ]} in
  g_transport <$>
    graph (cn (final (open ok_world graphd 0 None true (Some hdr) "" (fresh graphd 0))))
  = Some (THTTPClient {| url := "http://graphd:9669"; TLSClientConfig := None;
                         header := [("X-Trace", "a"); ("X-Trace", "b")] |}).
Proof. vm_compute. reflexivity. Qed.

(** ** Reopening *)

Lemma count_events_app p tr1 tr2 :
  count_events p (tr1 ++ tr2) = count_events p tr1 + count_events p tr2.
Proof. induction tr1 as [|e tr1 IH]; cbn; [reflexivity|]. rewrite IH. lia. Qed.

Lemma is_construct_construct_event newAdd t ssl h2 :
  is_construct (construct_event newAdd t ssl h2) = true.
Proof. destruct h2, ssl; reflexivity. Qed.

Lemma is_json_construct_event newAdd t ssl h2 :
  is_json (construct_event newAdd t ssl h2) = false.
Proof. destruct h2, ssl; reflexivity. Qed.

(** However it ends, [open] constructs exactly one transport and sends no
    structured-payload request. *)
Lemma open_counts w addr t ssl h2 hdr key m :
  let m' := final (open w addr t ssl h2 hdr key m) in
  count_events is_construct (trace m') = count_events is_construct (trace m) + 1 /\
  count_events is_json (trace m') = count_events is_json (trace m).
Proof.
  cbn zeta. rewrite open_run. cbn zeta.
  destruct (construct_reply w _) as [e|]; [|destruct (open_reply w _) as [e|[|]]].
  all: try (erewrite verifyClientVersion_run by reflexivity; cbn zeta; cbn [cn trace];
            destruct (verify_reply w _) as [[resp|] [err|]]).
  all: try (erewrite close_run by reflexivity; cbn zeta; destruct (close_reply w _)).
  all: try destruct (decide _).
  all: cbn [final trace]; rewrite ?count_events_app; cbn [count_events];
       rewrite is_construct_construct_event, is_json_construct_event;
       cbn; lia.
Qed.

(** [reopen] closes the stub and opens again with the fields the connection
    has stored. *)
Lemma reopen_run w m g :
  graph (cn m) = Some g ->
  reopen w m =
    open w (severAddress (cn m)) (timeout (cn m)) (sslConfig (cn m)) (useHTTP2 (cn m))
      (httpHeader (cn m)) (handshakeKey (cn m)) (final (close w m)).
Proof.
  intros Hg. unfold reopen. rewrite bind_run, (close_run _ _ _ Hg). cbn zeta.
  destruct (close_reply w _); reflexivity.
Qed.

Lemma reopen_counts w m g :
  graph (cn m) = Some g ->
  let m' := final (reopen w m) in
  count_events is_construct (trace m') = count_events is_construct (trace m) + 1 /\
  count_events is_json (trace m') = count_events is_json (trace m).
Proof.
  intros Hg. cbn zeta. rewrite (reopen_run _ _ _ Hg).
  destruct (open_counts w (severAddress (cn m)) (timeout (cn m)) (sslConfig (cn m))
              (useHTTP2 (cn m)) (httpHeader (cn m)) (handshakeKey (cn m))
              (final (close w m))) as [-> ->].
  rewrite (close_run _ _ _ Hg). cbn zeta.
  destruct (close_reply w _); cbn [final trace];
    rewrite !count_events_app; cbn; lia.
Qed.

(** ** The structured-payload request *)

Lemma ExecuteJsonWithParameter_run w m g sessionID stmt params :
  graph (cn m) = Some g ->
  ExecuteJsonWithParameter w sessionID stmt params m =
    let m1 :=
      {| cn := cn m;
         trace := trace m ++ [EExecuteJsonWithParameter (g_id g) sessionID stmt params] |} in
    match json_reply w (trace m1) with
    | (jsonResp, Some (TransportException typeID msg)) =>
        if decide (typeID = TIMED_OUT) then
          match reopen w m1 with
          | Ret (Some e) m2 => Ret (None, Some e) m2
          | Ret None m2 => graph_ExecuteJsonWithParameter w sessionID stmt params m2
          | Panic m2 => Panic m2
          end
        else Ret (jsonResp, Some (TransportException typeID msg)) m1
    | (jsonResp, err) => Ret (jsonResp, err) m1
    end.
Proof.
  intros Hg. unfold ExecuteJsonWithParameter.
  rewrite bind_run, (graph_ExecuteJsonWithParameter_run _ _ _ Hg). cbn zeta. cbn [trace].
  destruct (json_reply w _) as [jsonResp [[typeID msg|msg]|]]; try reflexivity.
  destruct (decide _); [|reflexivity].
  rewrite bind_run. destruct (reopen w _) as [[reopenErr|] m2|m2]; reflexivity.
Qed.

(** C3: on a connection with a stub, [ExecuteJsonWithParameter] first sends
    the request.  Unless the answer is a transport exception of type
    TIMED_OUT, that answer is returned as it is and nothing else is called.
    On a timeout the connection is reopened, once (one transport is
    constructed): if the reopen fails its error is returned with a nil
    payload and the request was sent once in all; if it succeeds the same
    request is sent to the new stub and whatever it answers is returned, even
    another timeout, so the request was sent twice in all. *)
Theorem ExecuteJsonWithParameter_retry (w : World) (m : Machine) (g : GraphServiceClient)
    (sessionID : Z) (stmt : string) (params : Params) :
  graph (cn m) = Some g ->
  let call id := EExecuteJsonWithParameter id sessionID stmt params in
  let m1 := {| cn := cn m; trace := trace m ++ [call (g_id g)] |} in
  let out := ExecuteJsonWithParameter w sessionID stmt params m in
  ((forall msg,
      (json_reply w (trace m1)).2 <> Some (TransportException TIMED_OUT msg)) ->
   out = Ret (json_reply w (trace m1)) m1) /\
  (forall jsonResp msg,
     json_reply w (trace m1) = (jsonResp, Some (TransportException TIMED_OUT msg)) ->
     count_events is_construct (trace (final out)) =
       count_events is_construct (trace m) + 1 /\
     match reopen w m1 with
     | Ret (Some reopenErr) m2 =>
         out = Ret (None, Some reopenErr) m2 /\
         count_events is_json (trace m2) = count_events is_json (trace m) + 1
     | Ret None m2 =>
         exists g2,
           graph (cn m2) = Some g2 /\
           out = Ret (json_reply w (trace m2 ++ [call (g_id g2)]))
                     {| cn := cn m2; trace := trace m2 ++ [call (g_id g2)] |} /\
           count_events is_json (trace (final out)) = count_events is_json (trace m) + 2
     | Panic m2 => out = Panic m2
     end).
Proof.
  intros Hg call m1 out. subst out.
  rewrite (ExecuteJsonWithParameter_run w m g sessionID stmt params Hg). cbn zeta.
  assert (Hg1 : graph (cn m1) = Some g) by exact Hg.
  destruct (reopen_counts w m1 g Hg1) as [Hcons Hjson].
  pose proof (reopen_run w m1 g Hg1) as Hrun.
  subst m1 call. cbn beta in *. cbn [trace] in *.
  rewrite count_events_app in Hcons, Hjson. cbn in Hcons, Hjson.
  split.
  - intros Hnot.
    destruct (json_reply w _) as [jsonResp [[typeID msg|msg]|]]; try reflexivity.
    destruct (decide _) as [->|]; [|reflexivity].
    exfalso. exact (Hnot msg eq_refl).
  - intros jsonResp msg ->. rewrite decide_True by reflexivity.
    destruct (reopen w _) as [[reopenErr|] m2|m2]; cbn [final] in Hcons, Hjson.
    + cbn [final]. split; [lia|]. split; [reflexivity|lia].
    + symmetry in Hrun.
      destruct (open_success _ _ _ _ _ _ _ _ _ Hrun) as (g2 & Hg2 & _).
      rewrite (graph_ExecuteJsonWithParameter_run _ _ _ Hg2). cbn zeta.
      cbn [final trace]. rewrite !count_events_app. cbn.
      split; [lia|]. exists g2. split; [exact Hg2|]. split; [reflexivity|]. lia.
    + cbn [final]. split; [lia|reflexivity].
Qed.

(** A first request that times out against a server that answers the second:
    the payload of the second comes back, after one reopen. *)
Lemma ExecuteJsonWithParameter_retry_witness :
  let w := timeout_once_world in
  let m := final (open w graphd 0 None false None "" (fresh graphd 0)) in
  exists m',
    ExecuteJsonWithParameter w 7 "YIELD 1" ∅ m = Ret (Some "{}", None) m' /\
    count_events is_construct (trace m') = 2 /\
    count_events is_json (trace m') = 2 /\
    count_events is_close (trace m') = 1.
Proof.
  intros w m.
  pose (g := {| g_id := 1; g_pf := HeaderProtocolFactory; g_open := true;
                g_transport :=
                  THeaderTransport
                    (TBufferedTransport 131072 (TSocket "graphd:9669" 0)) |}).
  assert (Hg : graph (cn m) = Some g) by (vm_compute; reflexivity).
  assert (Hreply :
            json_reply w (trace m ++ [EExecuteJsonWithParameter (g_id g) 7 "YIELD 1" ∅]) =
              (None, Some (TransportException TIMED_OUT "i/o timeout")))
    by (vm_compute; reflexivity).
  generalize (proj2 (ExecuteJsonWithParameter_retry w m g 7%Z "YIELD 1" ∅ Hg)
                None "i/o timeout" Hreply).
  vm_compute. intros [_ (g2 & _ & H & _)].
  eexists. split; [exact H|]. repeat split.
Defined.

(** ** What a reopen rebuilds *)

(** The fields of the connection when [open] ends, however it ends: the
    timeout, the variant and the handshake key are the arguments; the
    address, the TLS configuration and the headers are not assigned. *)
Lemma open_fields w addr t ssl h2 hdr key m :
  let c' := cn (final (open w addr t ssl h2 hdr key m)) in
  timeout c' = t /\ useHTTP2 c' = h2 /\ handshakeKey c' = key /\
  severAddress c' = severAddress (cn m) /\
  sslConfig c' = sslConfig (cn m) /\
  httpHeader c' = httpHeader (cn m) /\
  returnedAt c' = returnedAt (cn m).
Proof.
  cbn zeta. rewrite open_run. cbn zeta.
  destruct (construct_reply w _) as [e|]; [|destruct (open_reply w _) as [e|[|]]].
  all: try (erewrite verifyClientVersion_run by reflexivity; cbn zeta; cbn [cn trace];
            destruct (verify_reply w _) as [[resp|] [err|]]).
  all: try (erewrite close_run by reflexivity; cbn zeta; destruct (close_reply w _)).
  all: try destruct (decide _).
  all: cbn; repeat split.
Qed.

(** A [reopen] that follows a successful [open] calls [open] again with the
    timeout, variant and handshake key of that [open], and with the address,
    TLS configuration and headers the connection had before it. *)
Lemma reopen_after_open w addr t ssl h2 hdr key m m1 :
  open w addr t ssl h2 hdr key m = Ret None m1 ->
  reopen w m1 =
    open w (severAddress (cn m)) t (sslConfig (cn m)) h2 (httpHeader (cn m)) key
      (final (close w m1)).
Proof.
  intros Hopen.
  destruct (open_success _ _ _ _ _ _ _ _ _ Hopen) as (g & Hg & _).
  pose proof (open_fields w addr t ssl h2 hdr key m) as Hf.
  cbn zeta in Hf. rewrite Hopen in Hf. cbn [final] in Hf.
  destruct Hf as (Ht & Hh2 & Hkey & Haddr & Hssl & Hhdr & _).
  rewrite (reopen_run _ _ _ Hg), Ht, Hh2, Hkey, Haddr, Hssl, Hhdr. reflexivity.
Qed.

(** C1, where the code departs from it: a fresh connection is opened over
    TLS, with success, so the transport is a TLS socket with that
    configuration; the reopen that follows succeeds too, and the transport it
    rebuilds is a plain socket: the TLS configuration given to [open] was not
    stored and is gone. *)
Theorem reopen_loses_tls_config :
  let cfg := {| ServerName := "graphd"; InsecureSkipVerify := false |} in
  exists m1 m2 g1 g2,
    open ok_world graphd 3000 (Some cfg) false None "" (fresh graphd 0) = Ret None m1 /\
    graph (cn m1) = Some g1 /\
    g_transport g1 =
      THeaderTransport (TBufferedTransport 131072 (TSSLSocket "graphd:9669" cfg 3000)) /\
    reopen ok_world m1 = Ret None m2 /\
    graph (cn m2) = Some g2 /\
    g_transport g2 =
      THeaderTransport (TBufferedTransport 131072 (TSocket "graphd:9669" 3000)) /\
    trace m2 =
      [ENewSSLSocketTimeout "graphd:9669" cfg 3000; EOpen 1;
       EVerifyClientVersion 1 DefaultVersionReq; EClose 1;
       ENewSocket "graphd:9669" 3000; EOpen 5;
       EVerifyClientVersion 5 DefaultVersionReq].
Proof.
  intros cfg. do 4 eexists.
  split; [vm_compute; reflexivity|].
  split; [reflexivity|]. split; [reflexivity|].
  split; [vm_compute; reflexivity|].
  split; [reflexivity|]. split; reflexivity.
Qed.

(** The same loss for the headers of the HTTP/2 variant and for an address
    that differs from the one given to [newConnection]. *)
Example reopen_loses_headers_and_address :
  let hdr : Header := {[ "X-Trace" := ["a"] ]} in
  let other := {| Host := "graphd-2"; Port := 9669 |} in
  let m1 := final (open ok_world other 3000 None true (Some hdr) "" (fresh graphd 0)) in
  g_transport <$> graph (cn m1) =
    Some (THTTPClient {| url := "http://graphd-2:9669"; TLSClientConfig := None;
                         header := [("X-Trace", "a")] |}) /\
  g_transport <$> graph (cn (final (reopen ok_world m1))) =
    Some (THTTPClient {| url := "http://graphd:9669"; TLSClientConfig := None;
                         header := [] |}).
Proof. vm_compute. split; reflexivity. Qed.

(** ** Open, or closed *)

(** C2, where the code departs from it: against a server that answers the
    handshake with an error code, [open] returns the "incompatible" error and
    leaves the connection with its stub, the transport open, no close
    attempted; the query sent next on it is answered. *)
Theorem open_rejected_stays_open :
  exists m1 g,
    open reject_world graphd 0 None false None "" (fresh graphd 0) =
      Ret (Some (errorString
             "incompatible handshakeKey between client and server: version mismatch"))
          m1 /\
    graph (cn m1) = Some g /\
    g_open g = true /\
    count_events is_close (trace m1) = 0 /\
    exists resp m2, execute reject_world 7 "YIELD 1" m1 = Ret (Some resp, None) m2.
Proof.
  do 2 eexists.
  split; [vm_compute; reflexivity|].
  split; [reflexivity|]. split; [reflexivity|]. split; [reflexivity|].
  do 2 eexists. vm_compute. reflexivity.
Qed.

(** The sibling path, for contrast: when the handshake request itself
    fails, [open] returns with the transport closed. *)
Example open_lost_handshake_is_closed :
  let m1 := final (open handshake_lost_world graphd 0 None false None "" (fresh graphd 0)) in
  g_open <$> graph (cn m1) = Some false /\ count_events is_close (trace m1) = 1.
Proof. vm_compute. split; reflexivity. Qed.

(** ** The ways [open] ends *)

(** Splits [open] into its paths: constructor, [Open()], handshake, close. *)
Lemma handshake_req_key v key c :
  handshake_req (with_graph v (with_handshakeKey key c)) =
    if decide (key = "") then DefaultVersionReq else VersionReq key.
Proof. reflexivity. Qed.

Ltac open_cases w :=
  rewrite open_run; cbn zeta;
  destruct (construct_reply w _) as [?e|] eqn:?Hcons;
    [|destruct (open_reply w _) as [?e|[|]] eqn:?Hopen];
  try (erewrite verifyClientVersion_run by reflexivity; cbn zeta;
       cbn [cn trace g_id with_open]; rewrite handshake_req_key;
       destruct (verify_reply w _) as [[?resp|] [?err|]] eqn:?Hverify);
  try (erewrite close_run by reflexivity; cbn zeta; cbn [g_id with_open];
       destruct (close_reply w _) as [?e|] eqn:?Hclose);
  try destruct (decide (GetErrorCode _ = _)) as [?Hcode|?Hcode].

(** X1: however [open] ends, it has assigned the timeout, the variant and
    the handshake key it was given, and has not touched the address, the TLS
    configuration, the headers or the return time of the connection. *)
Theorem open_assigns_timeout_variant_key (w : World) (addr : HostAddress) (t : Duration)
    (ssl : option TLSConfig) (h2 : bool) (hdr : option Header) (key : string)
    (m : Machine) :
  let c' := cn (final (open w addr t ssl h2 hdr key m)) in
  timeout c' = t /\ useHTTP2 c' = h2 /\ handshakeKey c' = key /\
  severAddress c' = severAddress (cn m) /\
  sslConfig c' = sslConfig (cn m) /\
  httpHeader c' = httpHeader (cn m) /\
  returnedAt c' = returnedAt (cn m).
Proof. exact (open_fields w addr t ssl h2 hdr key m). Qed.

(** X2: when the transport cannot be constructed, [open] returns the
    construction error under the prefix "failed to create a net.Conn-backed
    Transport,: ", has made that one call only, and leaves [cn.graph] as it
    was: no partial transport is kept. *)
Theorem open_construct_failure (w : World) (addr : HostAddress) (t : Duration)
    (ssl : option TLSConfig) (h2 : bool) (hdr : option Header) (key : string)
    (m : Machine) (e : error) :
  let tr1 :=
    trace m ++ [construct_event (JoinHostPort (Host addr) (Itoa (Port addr))) t ssl h2] in
  construct_reply w tr1 = Some e ->
  exists m',
    open w addr t ssl h2 hdr key m =
      Ret (Some (errorString
             ("failed to create a net.Conn-backed Transport,: " +:+ Error e))) m' /\
    trace m' = tr1 /\
    graph (cn m') = graph (cn m).
Proof.
  intros tr1 Hc. subst tr1. rewrite open_run. cbn zeta. rewrite Hc.
  eexists. repeat split.
Qed.

Lemma open_construct_failure_witness :
  exists m',
    open unresolved_world graphd 0 None false None "" (fresh graphd 0) =
      Ret (Some (errorString
             "failed to create a net.Conn-backed Transport,: lookup graphd: no such host"))
          m' /\
    trace m' = [ENewSocket "graphd:9669" 0] /\
    graph (cn m') = None.
Proof.
  exact (open_construct_failure unresolved_world graphd 0 None false None ""
           (fresh graphd 0) (errorString "lookup graphd: no such host")
           ltac:(vm_compute; reflexivity)).
Defined.

(** X3: when the transport is constructed and [Open()] fails, [open]
    returns that error under the prefix "failed to open transport, error: ";
    no handshake is sent and no close is attempted; the stub is kept in
    [cn.graph], not open. *)
Theorem open_transport_open_failure (w : World) (addr : HostAddress) (t : Duration)
    (ssl : option TLSConfig) (h2 : bool) (hdr : option Header) (key : string)
    (m : Machine) (e : error) :
  let tr1 :=
    trace m ++ [construct_event (JoinHostPort (Host addr) (Itoa (Port addr))) t ssl h2] in
  construct_reply w tr1 = None ->
  open_reply w (tr1 ++ [EOpen (length tr1)]) = OpenError e ->
  exists m' g,
    open w addr t ssl h2 hdr key m =
      Ret (Some (errorString ("failed to open transport, error: " +:+ Error e))) m' /\
    trace m' = tr1 ++ [EOpen (length tr1)] /\
    graph (cn m') = Some g /\ g_open g = false.
Proof.
  intros tr1 Hc Ho. subst tr1. rewrite open_run. cbn zeta. rewrite Hc, Ho.
  do 2 eexists. repeat split.
Qed.

Lemma open_transport_open_failure_witness :
  exists m' g,
    open refused_world graphd 0 None false None "" (fresh graphd 0) =
      Ret (Some (errorString
             "failed to open transport, error: connect: connection refused")) m' /\
    trace m' = [ENewSocket "graphd:9669" 0; EOpen 1] /\
    graph (cn m') = Some g /\ g_open g = false.
Proof.
  exact (open_transport_open_failure refused_world graphd 0 None false None ""
           (fresh graphd 0) (TransportException 1 "connect: connection refused")
           ltac:(vm_compute; reflexivity) ltac:(vm_compute; reflexivity)).
Defined.

(** X4: when [Open()] returns no error and the transport then reports
    itself not open, [open] returns the error "transport is off"; no
    handshake is sent and no close is attempted. *)
Theorem open_transport_off (w : World) (addr : HostAddress) (t : Duration)
    (ssl : option TLSConfig) (h2 : bool) (hdr : option Header) (key : string)
    (m : Machine) :
  let tr1 :=
    trace m ++ [construct_event (JoinHostPort (Host addr) (Itoa (Port addr))) t ssl h2] in
  construct_reply w tr1 = None ->
  open_reply w (tr1 ++ [EOpen (length tr1)]) = OpenDone false ->
  exists m' g,
    open w addr t ssl h2 hdr key m = Ret (Some (errorString "transport is off")) m' /\
    trace m' = tr1 ++ [EOpen (length tr1)] /\
    graph (cn m') = Some g /\ g_open g = false.
Proof.
  intros tr1 Hc Ho. subst tr1. rewrite open_run. cbn zeta. rewrite Hc, Ho.
  do 2 eexists. repeat split.
Qed.

Lemma open_transport_off_witness :
  exists m' g,
    open off_world graphd 0 None false None "" (fresh graphd 0) =
      Ret (Some (errorString "transport is off")) m' /\
    trace m' = [ENewSocket "graphd:9669" 0; EOpen 1] /\
    graph (cn m') = Some g /\ g_open g = false.
Proof.
  exact (open_transport_off off_world graphd 0 None false None "" (fresh graphd 0)
           ltac:(vm_compute; reflexivity) ltac:(vm_compute; reflexivity)).
Defined.

(** The machine a successful [open] ends in. *)
Lemma open_success_inv w addr t ssl h2 hdr key m m' :
  let newAdd := JoinHostPort (Host addr) (Itoa (Port addr)) in
  let tr1 := trace m ++ [construct_event newAdd t ssl h2] in
  let n := length tr1 in
  let req := if decide (key = "") then DefaultVersionReq else VersionReq key in
  let tr3 := (tr1 ++ [EOpen n]) ++ [EVerifyClientVersion n req] in
  open w addr t ssl h2 hdr key m = Ret None m' ->
  construct_reply w tr1 = None /\
  open_reply w (tr1 ++ [EOpen n]) = OpenDone true /\
  (exists resp,
     verify_reply w tr3 = (Some resp, None) /\ ErrorCode resp = ErrorCode_SUCCEEDED) /\
  m' = {| cn := with_graph
                  (Some {| g_id := n;
                           g_transport := (built_transport newAdd t ssl h2 hdr).1;
                           g_pf := (built_transport newAdd t ssl h2 hdr).2;
                           g_open := true |})
                  (with_handshakeKey key (with_useHTTP2 h2 (with_timeout t (cn m))));
          trace := tr3 |}.
Proof.
  cbn zeta. open_cases w; try discriminate.
  intros [= <-]. repeat split.
  exists resp. split; [first [reflexivity|assumption]|exact Hcode].
Qed.

(** X5: [open] returns no error exactly when the constructor succeeds,
    [Open()] succeeds with the transport reporting itself open, and the
    handshake is answered without an RPC error and with the code SUCCEEDED.
    It then has made these three calls and no other, and [cn.graph] is a stub
    over the transport built for the arguments, open. *)
Theorem open_succeeds_iff (w : World) (addr : HostAddress) (t : Duration)
    (ssl : option TLSConfig) (h2 : bool) (hdr : option Header) (key : string)
    (m m' : Machine) :
  let newAdd := JoinHostPort (Host addr) (Itoa (Port addr)) in
  let tr1 := trace m ++ [construct_event newAdd t ssl h2] in
  let n := length tr1 in
  let req := if decide (key = "") then DefaultVersionReq else VersionReq key in
  let tr3 := (tr1 ++ [EOpen n]) ++ [EVerifyClientVersion n req] in
  open w addr t ssl h2 hdr key m = Ret None m' <->
  construct_reply w tr1 = None /\
  open_reply w (tr1 ++ [EOpen n]) = OpenDone true /\
  (exists resp,
     verify_reply w tr3 = (Some resp, None) /\ ErrorCode resp = ErrorCode_SUCCEEDED) /\
  m' = {| cn := with_graph
                  (Some {| g_id := n;
                           g_transport := (built_transport newAdd t ssl h2 hdr).1;
                           g_pf := (built_transport newAdd t ssl h2 hdr).2;
                           g_open := true |})
                  (with_handshakeKey key (with_useHTTP2 h2 (with_timeout t (cn m))));
          trace := tr3 |}.
Proof.
  cbn zeta. split; [apply open_success_inv|].
  intros (Hc & Ho & (resp & Hv & Hcode) & ->).
  rewrite open_run. cbn zeta. rewrite Hc, Ho.
  erewrite verifyClientVersion_run by reflexivity. cbn zeta.
  cbn [cn trace g_id with_open]. rewrite handshake_req_key, Hv.
  rewrite decide_True by exact Hcode. reflexivity.
Qed.

Lemma open_succeeds_iff_witness :
  open ok_world graphd 0 None false None "" (fresh graphd 0) =
    Ret None
      {| cn := with_graph (Some graphd_stub) (newConnection graphd 0);
         trace := [ENewSocket "graphd:9669" 0; EOpen 1;
                   EVerifyClientVersion 1 DefaultVersionReq] |}.
Proof.
  apply (proj2 (open_succeeds_iff ok_world graphd 0 None false None "" (fresh graphd 0) _)).
  split; [vm_compute; reflexivity|].
  split; [vm_compute; reflexivity|].
  split; [eexists; split; vm_compute; reflexivity|].
  vm_compute. reflexivity.
Defined.

(** The calls of [open], in order. *)
Lemma open_trace_shape w addr t ssl h2 hdr key m :
  let tr1 :=
    trace m ++ [construct_event (JoinHostPort (Host addr) (Itoa (Port addr))) t ssl h2] in
  let n := length tr1 in
  let req := if decide (key = "") then DefaultVersionReq else VersionReq key in
  exists rest,
    trace (final (open w addr t ssl h2 hdr key m)) = tr1 ++ rest /\
    rest `prefix_of` [EOpen n; EVerifyClientVersion n req; EClose n].
Proof.
  cbn zeta. open_cases w; cbn [final trace].
  all: match goal with
       | |- context [trace ?m0 ++ [?c]] => generalize (trace m0 ++ [c]); intros tr1
       end.
  all: rewrite <- ?app_assoc; cbn [app].
  all: eexists; split; [try reflexivity; symmetry; apply app_nil_r|].
  all: eexists; reflexivity.
Qed.

(** X6: however [open] ends, the calls it has made are the constructor
    for the variant and TLS setting it was given, then at most, and in this
    order, [Open()], one [VerifyClientVersion] carrying the handshake key it
    was given (the generated default when the key is empty) and one [Close()],
    all three on the stub it has just built; it sends nothing else. *)
Theorem open_call_sequence (w : World) (addr : HostAddress) (t : Duration)
    (ssl : option TLSConfig) (h2 : bool) (hdr : option Header) (key : string)
    (m : Machine) :
  let tr1 :=
    trace m ++ [construct_event (JoinHostPort (Host addr) (Itoa (Port addr))) t ssl h2] in
  let n := length tr1 in
  let req := if decide (key = "") then DefaultVersionReq else VersionReq key in
  exists rest,
    trace (final (open w addr t ssl h2 hdr key m)) = tr1 ++ rest /\
    rest `prefix_of` [EOpen n; EVerifyClientVersion n req; EClose n].
Proof. exact (open_trace_shape w addr t ssl h2 hdr key m). Qed.

(** X7: when [open], called on a connection without an open stub, returns an
    error and yet leaves a stub whose transport is open, then either the
    server answered the handshake with a code other than SUCCEEDED, or the
    handshake RPC failed and the close that followed failed too. *)
Theorem open_error_with_open_transport (w : World) (addr : HostAddress) (t : Duration)
    (ssl : option TLSConfig) (h2 : bool) (hdr : option Header) (key : string)
    (m m' : Machine) (err : error) (g : GraphServiceClient) :
  let tr1 :=
    trace m ++ [construct_event (JoinHostPort (Host addr) (Itoa (Port addr))) t ssl h2] in
  let n := length tr1 in
  let req := if decide (key = "") then DefaultVersionReq else VersionReq key in
  let tr3 := (tr1 ++ [EOpen n]) ++ [EVerifyClientVersion n req] in
  (forall g0, graph (cn m) = Some g0 -> g_open g0 = false) ->
  open w addr t ssl h2 hdr key m = Ret (Some err) m' ->
  graph (cn m') = Some g ->
  g_open g = true ->
  (exists resp,
     verify_reply w tr3 = (Some resp, None) /\ ErrorCode resp <> ErrorCode_SUCCEEDED) \/
  (exists resp e e',
     verify_reply w tr3 = (resp, Some e) /\ close_reply w (tr3 ++ [EClose n]) = Some e').
Proof.
  cbn zeta. intros Hclosed. open_cases w.
  all: intros [= <- <-] Hg Hopen'; cbn in Hg.
  all: try (injection Hg as <-; cbn in Hopen'; discriminate).
  all: try (rewrite (Hclosed _ Hg) in Hopen'; discriminate).
  all: try (left; eexists; split; [first [reflexivity|eassumption]|exact Hcode]).
  all: right; do 3 eexists; split; first [reflexivity|eassumption].
Qed.

Lemma open_error_with_open_transport_witness :
  exists resp,
    verify_reply reject_world
      [ENewSocket "graphd:9669" 0; EOpen 1; EVerifyClientVersion 1 DefaultVersionReq] =
      (Some resp, None) /\
    ErrorCode resp <> ErrorCode_SUCCEEDED.
Proof.
  destruct (open_error_with_open_transport reject_world graphd 0 None false None ""
              (fresh graphd 0)
              {| cn := with_graph (Some graphd_stub) (newConnection graphd 0);
                 trace := [ENewSocket "graphd:9669" 0; EOpen 1;
                           EVerifyClientVersion 1 DefaultVersionReq] |}
              (errorString
                 "incompatible handshakeKey between client and server: version mismatch")
              graphd_stub
              ltac:(discriminate)
              ltac:(vm_compute; reflexivity)
              ltac:(reflexivity)
              ltac:(reflexivity)) as [H|(resp & e & e' & H & _)].
  - exact H.
  - vm_compute in H. discriminate H.
Defined.

(** ** The transport [open] builds *)

(** Once the constructor has succeeded, [open] ends, however it ends, with
    a stub over the transport and the protocol of [built_transport]. *)
Lemma open_stub_built w addr t ssl h2 hdr key m :
  let newAdd := JoinHostPort (Host addr) (Itoa (Port addr)) in
  construct_reply w (trace m ++ [construct_event newAdd t ssl h2]) = None ->
  exists g,
    graph (cn (final (open w addr t ssl h2 hdr key m))) = Some g /\
    g_transport g = (built_transport newAdd t ssl h2 hdr).1 /\
    g_pf g = (built_transport newAdd t ssl h2 hdr).2.
Proof.
  cbn zeta. intros Hc. open_cases w; try discriminate.
  all: eexists; repeat split.
Qed.

Lemma url_set_values k vv client : url (set_values k vv client) = url client.
Proof. revert client. induction vv as [|v vv IH]; intros; cbn; [|rewrite IH]; reflexivity. Qed.

Lemma tls_set_values k vv client :
  TLSClientConfig (set_values k vv client) = TLSClientConfig client.
Proof. revert client. induction vv as [|v vv IH]; intros; cbn; [|rewrite IH]; reflexivity. Qed.

Lemma url_set_headers kvs client : url (set_headers kvs client) = url client.
Proof.
  revert client. induction kvs as [|[k vv] kvs IH]; intros; cbn [set_headers];
    [reflexivity|].
  destruct (decide _); rewrite IH; [reflexivity|apply url_set_values].
Qed.

Lemma tls_set_headers kvs client :
  TLSClientConfig (set_headers kvs client) = TLSClientConfig client.
Proof.
  revert client. induction kvs as [|[k vv] kvs IH]; intros; cbn [set_headers];
    [reflexivity|].
  destruct (decide _); rewrite IH; [reflexivity|apply tls_set_values].
Qed.

(** X8: without [useHTTP2], once the socket is constructed, the stub
    [open] leaves is built over a header transport over a buffered transport
    of 131072 bytes (128 KiB) over the socket, with the header protocol; the
    socket is a TLS socket with the given configuration exactly when one is
    given, on the joined host and port, with the given timeout; the header
    map plays no part. *)
Theorem open_socket_transport (w : World) (addr : HostAddress) (t : Duration)
    (ssl : option TLSConfig) (hdr : option Header) (key : string) (m : Machine) :
  let newAdd := JoinHostPort (Host addr) (Itoa (Port addr)) in
  construct_reply w (trace m ++ [construct_event newAdd t ssl false]) = None ->
  exists g,
    graph (cn (final (open w addr t ssl false hdr key m))) = Some g /\
    g_transport g =
      THeaderTransport
        (TBufferedTransport 131072
           (match ssl with
            | Some cfg => TSSLSocket newAdd cfg t
            | None => TSocket newAdd t
            end)) /\
    g_pf g = HeaderProtocolFactory.
Proof.
  intros newAdd Hc.
  destruct (open_stub_built w addr t ssl false hdr key m Hc) as (g & Hg & Ht & Hpf).
  exists g. split; [exact Hg|]. split; [exact Ht|exact Hpf].
Qed.

Lemma open_socket_transport_witness :
  let cfg := {| ServerName := "graphd"; InsecureSkipVerify := true |} in
  exists g,
    graph (cn (final (open ok_world graphd 3000 (Some cfg) false None "" (fresh graphd 0))))
      = Some g /\
    g_transport g =
      THeaderTransport (TBufferedTransport 131072 (TSSLSocket "graphd:9669" cfg 3000)) /\
    g_pf g = HeaderProtocolFactory.
Proof.
  intros cfg.
  exact (open_socket_transport ok_world graphd 3000 (Some cfg) None "" (fresh graphd 0)
           ltac:(vm_compute; reflexivity)).
Defined.

(** X9: with [useHTTP2], once the client is constructed, the stub [open]
    leaves is built over an HTTP client with the binary protocol; the client
    posts to "https://host:port" when a TLS configuration is given, which is
    then the one of its HTTP/2 transport, and to "http://host:port" when none
    is; with a nil header map it has been given no header. *)
Theorem open_http2_transport (w : World) (addr : HostAddress) (t : Duration)
    (ssl : option TLSConfig) (hdr : option Header) (key : string) (m : Machine) :
  let newAdd := JoinHostPort (Host addr) (Itoa (Port addr)) in
  construct_reply w (trace m ++ [construct_event newAdd t ssl true]) = None ->
  exists g client,
    graph (cn (final (open w addr t ssl true hdr key m))) = Some g /\
    g_transport g = THTTPClient client /\
    g_pf g = BinaryProtocolFactory /\
    url client = match ssl with
                 | Some _ => "https://" +:+ newAdd
                 | None => "http://" +:+ newAdd
                 end /\
    TLSClientConfig client = ssl /\
    (hdr = None -> header client = []).
Proof.
  intros newAdd Hc.
  destruct (open_stub_built w addr t ssl true hdr key m Hc) as (g & Hg & Ht & Hpf).
  exists g. eexists. split; [exact Hg|]. split; [exact Ht|]. split; [exact Hpf|].
  destruct hdr as [h|].
  - rewrite url_set_headers, tls_set_headers. repeat split. discriminate.
  - repeat split.
Qed.

Lemma open_http2_transport_witness :
  let cfg := {| ServerName := "graphd"; InsecureSkipVerify := false |} in
  exists g client,
    graph (cn (final (open ok_world graphd 0 (Some cfg) true None "" (fresh graphd 0))))
      = Some g /\
    g_transport g = THTTPClient client /\
    g_pf g = BinaryProtocolFactory /\
    url client = "https://graphd:9669" /\
    TLSClientConfig client = Some cfg /\
    (@None Header = None -> header client = []).
Proof.
  intros cfg.
  exact (open_http2_transport ok_world graphd 0 (Some cfg) None "" (fresh graphd 0)
           ltac:(vm_compute; reflexivity)).
Defined.

(** X10: with [useHTTP2] the timeout given to [open] is stored and used for
    nothing else: two opens that differ in the timeout only make the same
    calls, return the same error and leave the same stub. *)
Theorem open_http2_ignores_timeout (w : World) (addr : HostAddress) (t t' : Duration)
    (ssl : option TLSConfig) (hdr : option Header) (key : string) (m : Machine) :
  let o := open w addr t ssl true hdr key m in
  let o' := open w addr t' ssl true hdr key m in
  trace (final o) = trace (final o') /\
  graph (cn (final o)) = graph (cn (final o')) /\
  match o, o' with
  | Ret err _, Ret err' _ => err = err'
  | Panic _, Panic _ => True
  | _, _ => False
  end.
Proof.
  cbn zeta. rewrite !open_run. cbn zeta. cbn [construct_event].
  destruct (construct_reply w _) as [e|]; [repeat split|].
  destruct (open_reply w _) as [e|[|]]; [repeat split| |repeat split].
  erewrite !verifyClientVersion_run by reflexivity. cbn zeta.
  cbn [cn trace g_id with_open]. rewrite !handshake_req_key.
  destruct (verify_reply w _) as [[resp|] [err|]].
  all: try (erewrite !close_run by reflexivity; cbn zeta; cbn [cn trace g_id with_open];
            destruct (close_reply w _)).
  all: try destruct (decide _).
  all: repeat split.
Qed.

(** ** More on [reopen] *)

Lemma close_final w m g :
  graph (cn m) = Some g ->
  let m' := final (close w m) in
  trace m' = trace m ++ [EClose (g_id g)] /\
  severAddress (cn m') = severAddress (cn m) /\
  timeout (cn m') = timeout (cn m) /\
  sslConfig (cn m') = sslConfig (cn m) /\
  useHTTP2 (cn m') = useHTTP2 (cn m) /\
  httpHeader (cn m') = httpHeader (cn m) /\
  handshakeKey (cn m') = handshakeKey (cn m).
Proof.
  intros Hg. cbn zeta. rewrite (close_run _ _ _ Hg). cbn zeta.
  destruct (close_reply w _); cbn; repeat split.
Qed.

Lemma count_events_prefix p (l1 l2 : list Event) :
  l1 `prefix_of` l2 -> count_events p l2 = 0 -> count_events p l1 = 0.
Proof. intros [k ->]. rewrite count_events_app. lia. Qed.

(** X11: a successful [reopen] after a successful [open] builds a transport
    and a protocol equal to the original's, provided the address given to
    [open] is the one the connection was created with and the TLS
    configuration and the headers given to [open] are the ones the connection
    holds (nil, on a connection made by [newConnection]). *)
Theorem reopen_rebuilds_same_transport (w : World) (addr : HostAddress) (t : Duration)
    (ssl : option TLSConfig) (h2 : bool) (hdr : option Header) (key : string)
    (m m1 m2 : Machine) :
  severAddress (cn m) = addr ->
  sslConfig (cn m) = ssl ->
  httpHeader (cn m) = hdr ->
  open w addr t ssl h2 hdr key m = Ret None m1 ->
  reopen w m1 = Ret None m2 ->
  exists g1 g2,
    graph (cn m1) = Some g1 /\ graph (cn m2) = Some g2 /\
    g_transport g2 = g_transport g1 /\ g_pf g2 = g_pf g1 /\ g_open g2 = true.
Proof.
  intros Haddr Hssl Hhdr Hopen Hre.
  rewrite (reopen_after_open _ _ _ _ _ _ _ _ _ Hopen), Haddr, Hssl, Hhdr in Hre.
  apply open_success_inv in Hopen as (_ & _ & _ & ->).
  apply open_success_inv in Hre as (_ & _ & _ & ->).
  do 2 eexists. repeat split.
Qed.

Lemma reopen_rebuilds_same_transport_witness :
  let m1 := {| cn := with_graph (Some graphd_stub) (newConnection graphd 0);
               trace := [ENewSocket "graphd:9669" 0; EOpen 1;
                         EVerifyClientVersion 1 DefaultVersionReq] |} in
  exists m2 g2,
    reopen ok_world m1 = Ret None m2 /\
    graph (cn m2) = Some g2 /\
    g_transport g2 = g_transport graphd_stub /\ g_pf g2 = g_pf graphd_stub.
Proof.
  intros m1.
  assert (Hre : exists m2, reopen ok_world m1 = Ret None m2)
    by (eexists; vm_compute; reflexivity).
  destruct Hre as [m2 Hre]. exists m2.
  destruct (reopen_rebuilds_same_transport ok_world graphd 0 None false None ""
              (fresh graphd 0) m1 m2 eq_refl eq_refl eq_refl
              ltac:(vm_compute; reflexivity) Hre)
    as (g1 & g2 & Hg1 & Hg2 & Ht & Hpf & _).
  injection Hg1 as <-.
  exists g2. split; [exact Hre|]. split; [exact Hg2|]. split; [exact Ht|exact Hpf].
Defined.

(** X12: on a connection with a stub, [reopen] first closes that stub, then
    constructs one transport from the stored address, timeout, TLS
    configuration and variant, and goes on, however the close ended, with at
    most [Open()], one handshake carrying the stored key and one close on the
    new stub; it sends no [Authenticate]. *)
Theorem reopen_call_sequence (w : World) (m : Machine) (g : GraphServiceClient) :
  graph (cn m) = Some g ->
  let c := cn m in
  let built :=
    construct_event (JoinHostPort (Host (severAddress c)) (Itoa (Port (severAddress c))))
      (timeout c) (sslConfig c) (useHTTP2 c) in
  let n := length (trace m) + 2 in
  let req :=
    if decide (handshakeKey c = "") then DefaultVersionReq
    else VersionReq (handshakeKey c) in
  let m' := final (reopen w m) in
  (exists rest,
     trace m' = trace m ++ EClose (g_id g) :: built :: rest /\
     rest `prefix_of` [EOpen n; EVerifyClientVersion n req; EClose n]) /\
  count_events is_auth (trace m') = count_events is_auth (trace m).
Proof.
  intros Hg. cbn zeta. rewrite (reopen_run _ _ _ Hg).
  destruct (close_final w m g Hg) as (Htr & _).
  destruct (open_trace_shape w (severAddress (cn m)) (timeout (cn m)) (sslConfig (cn m))
              (useHTTP2 (cn m)) (httpHeader (cn m)) (handshakeKey (cn m))
              (final (close w m))) as (rest & Hshape & Hpre).
  rewrite Htr in Hshape, Hpre.
  rewrite !length_app in Hpre. cbn [length] in Hpre.
  rewrite <- !app_assoc in Hshape. cbn [app] in Hshape.
  assert (Hrest : count_events is_auth rest = 0)
    by (apply (count_events_prefix _ _ _ Hpre); reflexivity).
  split.
  - exists rest. split; [exact Hshape|].
    replace (length (trace m) + 2) with (length (trace m) + 1 + 1) by lia. exact Hpre.
  - rewrite Hshape, count_events_app. cbn [count_events is_auth].
    rewrite Hrest.
    destruct (useHTTP2 (cn m)), (sslConfig (cn m)); cbn; lia.
Qed.

Lemma reopen_call_sequence_witness :
  let m1 := {| cn := with_graph (Some graphd_stub) (newConnection graphd 0);
               trace := [ENewSocket "graphd:9669" 0; EOpen 1;
                         EVerifyClientVersion 1 DefaultVersionReq] |} in
  count_events is_auth (trace (final (reopen handshake_lost_world m1))) = 0.
Proof.
  intros m1.
  exact (proj2 (reopen_call_sequence handshake_lost_world m1 graphd_stub eq_refl)).
Defined.

(** ** More on the requests *)

(** X13: [execute], [executeWithParameter], [executeWithParameterTimeout],
    [signOut] and [ping] never change the connection, whatever the stub
    answers and whether they return or panic: no field is assigned, the stub
    is neither closed nor replaced. *)
Theorem requests_keep_connection (w : World) (m : Machine) :
  (forall sessionID stmt, cn (final (execute w sessionID stmt m)) = cn m) /\
  (forall sessionID stmt params,
     cn (final (executeWithParameter w sessionID stmt params m)) = cn m) /\
  (forall sessionID stmt params timeoutMs,
     cn (final (executeWithParameterTimeout w sessionID stmt params timeoutMs m)) = cn m) /\
  (forall sessionID, cn (final (signOut w sessionID m)) = cn m) /\
  cn (final (ping w m)) = cn m.
Proof.
  assert (Hexec : forall sessionID stmt params,
            cn (final (executeWithParameter w sessionID stmt params m)) = cn m).
  { intros. destruct (graph (cn m)) as [g|] eqn:Hg.
    - rewrite (executeWithParameter_run _ _ _ _ _ _ Hg). reflexivity.
    - rewrite (executeWithParameter_nil _ _ _ _ _ Hg). reflexivity. }
  split; [intros; apply Hexec|]. split; [exact Hexec|]. split; [|split].
  - intros. unfold executeWithParameterTimeout, graph_ExecuteWithTimeout.
    rewrite bind_run. destruct (graph (cn m)) as [g|] eqn:Hg.
    + rewrite (deref_graph_some _ _ Hg). reflexivity.
    + rewrite (deref_graph_none _ Hg). reflexivity.
  - intros. unfold signOut, graph_Signout.
    rewrite bind_run. destruct (graph (cn m)) as [g|] eqn:Hg.
    + rewrite (deref_graph_some _ _ Hg). reflexivity.
    + rewrite (deref_graph_none _ Hg). reflexivity.
  - rewrite ping_run. unfold execute.
    specialize (Hexec 0%Z "YIELD 1" ∅).
    destruct (executeWithParameter w 0 "YIELD 1" ∅ m); exact Hexec.
Qed.

(** X14: when the [ExecuteWithParameter] RPC returns an error, a timeout
    included, [executeWithParameter] returns that error as it is, with a nil
    response even if the stub returned one; the request was sent once, and
    nothing is closed or reopened. *)
Theorem executeWithParameter_error (w : World) (m : Machine) (g : GraphServiceClient)
    (sessionID : Z) (stmt : string) (params : Params) (resp : option ExecutionResponse)
    (err : error) :
  graph (cn m) = Some g ->
  let tr := trace m ++ [EExecuteWithParameter (g_id g) sessionID stmt params] in
  exec_reply w tr = (resp, Some err) ->
  executeWithParameter w sessionID stmt params m =
    Ret (None, Some err) {| cn := cn m; trace := tr |}.
Proof.
  intros Hg tr Hr. rewrite (executeWithParameter_run _ _ _ _ _ _ Hg). cbn zeta.
  fold tr. rewrite Hr. reflexivity.
Qed.

Lemma executeWithParameter_error_witness :
  let m1 := {| cn := with_graph (Some graphd_stub) (newConnection graphd 0);
               trace := [ENewSocket "graphd:9669" 0; EOpen 1;
                         EVerifyClientVersion 1 DefaultVersionReq] |} in
  executeWithParameter slow_world 7 "MATCH (v) RETURN v" ∅ m1 =
    Ret (None, Some (TransportException TIMED_OUT "i/o timeout"))
        {| cn := cn m1;
           trace := trace m1 ++ [EExecuteWithParameter 1 7 "MATCH (v) RETURN v" ∅] |}.
Proof.
  intros m1.
  exact (executeWithParameter_error slow_world m1 graphd_stub 7 "MATCH (v) RETURN v" ∅
           (Some {| exec_ErrorCode := 0; exec_LatencyInUs := 0; exec_ErrorMsg := None |})
           (TransportException TIMED_OUT "i/o timeout") eq_refl eq_refl).
Defined.

(** X15: when the [Authenticate] RPC returns no error, [authenticate]
    returns the response as the stub gave it, whatever error code it carries,
    and does not close the transport: the request is the only call and the
    connection is unchanged. *)
Theorem authenticate_success (w : World) (m : Machine) (g : GraphServiceClient)
    (username password : string) (resp : option AuthResponse) :
  graph (cn m) = Some g ->
  let tr := trace m ++ [EAuthenticate (g_id g) username password] in
  auth_reply w tr = (resp, None) ->
  authenticate w username password m = Ret (resp, None) {| cn := cn m; trace := tr |}.
Proof.
  intros Hg tr Hr. unfold authenticate.
  rewrite bind_run, (graph_Authenticate_run _ _ _ Hg). cbn zeta.
  fold tr. rewrite Hr. reflexivity.
Qed.

Lemma authenticate_success_witness :
  let m1 := {| cn := with_graph (Some graphd_stub) (newConnection graphd 0);
               trace := [ENewSocket "graphd:9669" 0; EOpen 1;
                         EVerifyClientVersion 1 DefaultVersionReq] |} in
  authenticate ok_world "root" "nebula" m1 =
    Ret (Some {| auth_ErrorCode := 0; auth_ErrorMsg := None; auth_SessionID := Some 7%Z |},
         None)
        {| cn := cn m1; trace := trace m1 ++ [EAuthenticate 1 "root" "nebula"] |}.
Proof.
  intros m1.
  exact (authenticate_success ok_world m1 graphd_stub "root" "nebula" _ eq_refl eq_refl).
Defined.

(** X16: on a connection with a stub, [close] always returns, and returns
    nothing: when [Close()] fails the failure is dropped and the connection
    is as before; when it succeeds the transport is marked closed.  Nothing
    guards a second [close]: it calls [Close()] on the same stub again. *)
Theorem close_drops_error (w : World) (m : Machine) (g : GraphServiceClient) :
  graph (cn m) = Some g ->
  let tr := trace m ++ [EClose (g_id g)] in
  exists m1,
    close w m = Ret tt m1 /\
    trace m1 = tr /\
    (forall e, close_reply w tr = Some e -> cn m1 = cn m) /\
    (close_reply w tr = None -> graph (cn m1) = Some (with_open false g)) /\
    trace (final (close w m1)) = tr ++ [EClose (g_id g)].
Proof.
  intros Hg tr. rewrite (close_run _ _ _ Hg). cbn zeta. fold tr.
  destruct (close_reply w tr) as [e|]; eexists; (split; [reflexivity|]).
  all: split; [reflexivity|]. all: split; [intros; first [reflexivity|discriminate]|].
  all: split; [intros; first [reflexivity|discriminate]|].
  all: erewrite close_run by (first [exact Hg|reflexivity]); cbn zeta; cbn [cn trace].
  all: destruct (close_reply w (tr ++ _)); reflexivity.
Qed.

Lemma close_drops_error_witness :
  let m1 := {| cn := with_graph (Some graphd_stub) (newConnection graphd 0);
               trace := [ENewSocket "graphd:9669" 0; EOpen 1;
                         EVerifyClientVersion 1 DefaultVersionReq] |} in
  exists m2,
    close (broken_world true) m1 = Ret tt m2 /\ cn m2 = cn m1 /\
    trace (final (close (broken_world true) m2)) = trace m1 ++ [EClose 1; EClose 1].
Proof.
  intros m1.
  destruct (close_drops_error (broken_world true) m1 graphd_stub eq_refl)
    as (m2 & Hc & _ & Hfail & _ & Htwice).
  exists m2. split; [exact Hc|]. split.
  - exact (Hfail (errorString "close: bad file descriptor") eq_refl).
  - exact Htwice.
Defined.

(** X17: on a connection with a stub, [ping] returns, having sent exactly
    one request, [ExecuteWithParameter] for session 0, statement "YIELD 1"
    and no parameter, and leaves the connection unchanged. *)
Theorem ping_single_request (w : World) (m : Machine) (g : GraphServiceClient) :
  graph (cn m) = Some g ->
  exists ok,
    ping w m =
      Ret ok {| cn := cn m;
                trace := trace m ++ [EExecuteWithParameter (g_id g) 0 "YIELD 1" ∅] |}.
Proof.
  intros Hg. rewrite ping_run. unfold execute.
  rewrite (executeWithParameter_run _ _ _ _ _ _ Hg). cbn zeta.
  eexists. reflexivity.
Qed.

Lemma ping_single_request_witness :
  let m1 := {| cn := with_graph (Some graphd_stub) (newConnection graphd 0);
               trace := [ENewSocket "graphd:9669" 0; EOpen 1;
                         EVerifyClientVersion 1 DefaultVersionReq] |} in
  exists ok,
    ping ok_world m1 =
      Ret ok {| cn := cn m1;
                trace := trace m1 ++ [EExecuteWithParameter 1 0 "YIELD 1" ∅] |}.
Proof.
  intros m1. exact (ping_single_request ok_world m1 graphd_stub eq_refl).
Defined.
